(** * webloc_filename_processing: the two scripts, embedded and verified

    [change_webloc_names.py] deduplicates URL shortcuts and renames them after
    the title of the linked page; [slim_webloc_names.py] asks a remote service
    for shorter names, in batches, and renames the files accordingly.

    Python strings are sequences of Unicode code points; the filesystem, the
    page-title fetcher and the simplification service are the environment:
    their answers are inputs of the model. *)

From Stdlib Require Import ZArith Ascii String List Lia Bool.
From stdpp Require Import base list gmap.

Local Open Scope Z_scope.

(** ** Python strings and the standard-library functions the scripts call *)

Module Py.

(** A [str] is its list of code points, so [len] counts what Python counts. *)
Abbreviation pystr := (list Z).

Definition len (s : pystr) : Z := Z.of_nat (length s).

(** String literals are written in UTF-8, like the scripts themselves. *)
Fixpoint bytes (s : string) : list Z :=
  match s with
  | EmptyString => []
  | String a s' => Z.of_N (N_of_ascii a) :: bytes s'
  end.

Fixpoint utf8 (pending : nat) (acc : Z) (bs : list Z) : pystr :=
  match bs with
  | [] => []
  | b :: bs' =>
      match pending with
      | S k =>
          let acc' := Z.lor (Z.shiftl acc 6) (Z.land b 63) in
          match k with
          | O => acc' :: utf8 O 0 bs'
          | S _ => utf8 k acc' bs'
          end
      | O =>
          if b <? 128 then b :: utf8 O 0 bs'
          else if b <? 224 then utf8 1%nat (Z.land b 31) bs'
          else if b <? 240 then utf8 2%nat (Z.land b 15) bs'
          else utf8 3%nat (Z.land b 7) bs'
      end
  end.

Definition str (s : string) : pystr := utf8 O 0 (bytes s).

Definition eqb (a b : pystr) : bool := bool_decide (a = b).

(** [s.startswith(p)] *)
Fixpoint startswith (s p : pystr) {struct p} : bool :=
  match p, s with
  | [], _ => true
  | _ :: _, [] => false
  | x :: p', y :: s' => (x =? y) && startswith s' p'
  end.

(** [s.endswith(p)] *)
Definition endswith (s p : pystr) : bool := startswith (reverse s) (reverse p).

(** [s[:m]] and [s[m:]], with Python's reading of a negative bound. *)
Definition slice_to (m : Z) (s : pystr) : pystr :=
  if m <? 0 then take (Z.to_nat (len s + m)) s else take (Z.to_nat m) s.

Definition slice_from (m : Z) (s : pystr) : pystr :=
  if m <? 0 then drop (Z.to_nat (len s + m)) s else drop (Z.to_nat m) s.

(** [s.split(sep)] for a non-empty [sep]: separators are found from the left
    and do not overlap.  [skip] counts the characters of a separator that was
    just matched and is still to be passed over. *)
Fixpoint split_from (sep : pystr) (skip : nat) (s : pystr) : list pystr :=
  match s with
  | [] => [[]]
  | c :: s' =>
      match skip with
      | S k => split_from sep k s'
      | O =>
          if startswith s sep then [] :: split_from sep (length sep - 1) s'
          else match split_from sep O s' with
               | seg :: rest => (c :: seg) :: rest
               | [] => [[c]]
               end
      end
  end.

Definition split (sep s : pystr) : list pystr := split_from sep O s.

(** [parts[0]] and [parts[-1]] of a split result. *)
Definition first (parts : list pystr) : pystr := hd [] parts.
Definition last (parts : list pystr) : pystr := List.last parts [].

(** [sep.join(parts)] *)
Fixpoint join_with (sep : pystr) (parts : list pystr) : pystr :=
  match parts with
  | [] => []
  | p :: rest =>
      match rest with
      | [] => p
      | _ :: _ => p ++ sep ++ join_with sep rest
      end
  end.

(** [s.replace(old, new)] for a non-empty [old]. *)
Fixpoint replace_from (old new : pystr) (skip : nat) (s : pystr) : pystr :=
  match s with
  | [] => []
  | c :: s' =>
      match skip with
      | S k => replace_from old new k s'
      | O =>
          if startswith s old then new ++ replace_from old new (length old - 1) s'
          else c :: replace_from old new O s'
      end
  end.

Definition replace (old new s : pystr) : pystr := replace_from old new O s.

(** [s.rfind(c)] for a one-character [c]; [-1] when absent. *)
Fixpoint rfind_opt (c : Z) (s : pystr) : option nat :=
  match s with
  | [] => None
  | x :: s' =>
      match rfind_opt c s' with
      | Some i => Some (S i)
      | None => if x =? c then Some O else None
      end
  end.

Definition rfind (c : Z) (s : pystr) : Z :=
  match rfind_opt c s with
  | Some i => Z.of_nat i
  | None => -1
  end.

(** [s.rstrip(c)] for a one-character [c]. *)
Fixpoint lstrip (c : Z) (s : pystr) : pystr :=
  match s with
  | x :: s' => if x =? c then lstrip c s' else s
  | [] => []
  end.

Definition rstrip (c : Z) (s : pystr) : pystr := reverse (lstrip c (reverse s)).

Definition slash : Z := 47.
Definition dot : Z := 46.

(** [posixpath.basename], [posixpath.dirname], [posixpath.join] (two
    arguments) and [posixpath.splitext]. *)
Definition basename (p : pystr) : pystr := slice_from (rfind slash p + 1) p.

Definition dirname (p : pystr) : pystr :=
  let head := slice_to (rfind slash p + 1) p in
  if negb (eqb head []) && negb (forallb (Z.eqb slash) head)
  then rstrip slash head else head.

Definition join (a b : pystr) : pystr :=
  if startswith b [slash] then b
  else if eqb a [] || endswith a [slash] then a ++ b
  else a ++ slash :: b.

Definition splitext (p : pystr) : pystr * pystr :=
  let sepIndex := rfind slash p in
  let dotIndex := rfind dot p in
  if (sepIndex <? dotIndex)
     && negb (forallb (Z.eqb dot) (slice_from (sepIndex + 1) (slice_to dotIndex p)))
  then (slice_to dotIndex p, slice_from dotIndex p)
  else (p, []).

(** [re.search(lit, s, re.I)] for a literal [lit] written in lower case: an
    ASCII letter of the pattern also matches its capital and the four
    non-ASCII letters that Python folds onto i, s and k. *)
Definition ci_match (p c : Z) : bool :=
  (c =? p)
  || ((97 <=? p) && (p <=? 122) && (c =? p - 32))
  || ((p =? 105) && ((c =? 304) || (c =? 305)))
  || ((p =? 115) && (c =? 383))
  || ((p =? 107) && (c =? 8490)).

Fixpoint ci_startswith (s lit : pystr) {struct lit} : bool :=
  match lit, s with
  | [], _ => true
  | _ :: _, [] => false
  | p :: lit', c :: s' => ci_match p c && ci_startswith s' lit'
  end.

Fixpoint ci_search (lit s : pystr) : bool :=
  ci_startswith s lit ||
  match s with
  | [] => false
  | _ :: s' => ci_search lit s'
  end.

End Py.

Import Py.

Notation "x |> f" := (f x) (at level 45, left associativity, only parsing).

(** ** The filesystem

    A path names at most one file.  A shortcut keeps an identity, so that a
    file can be followed through renames, and the URL it stores. *)

Module Fs.

Inductive file : Type :=
  | Webloc (ident : nat) (url : pystr)
  | Script (failed_list : list pystr).

Abbreviation t := (gmap pystr file).

(** [os.rename(src, dst)]: [None] stands for the raised [OSError].  The call
    fails when the system refuses it or when [src] does not exist; otherwise
    [dst] is replaced. *)
Definition rename (refused : bool) (src dst : pystr) (fs : t) : option t :=
  if refused then None
  else match fs !! src with
       | Some f => Some (<[dst := f]> (delete src fs))
       | None => None
       end.

(** [os.remove(path)] *)
Definition remove (refused : bool) (path : pystr) (fs : t) : option t :=
  if refused then None
  else match fs !! path with
       | Some _ => Some (delete path fs)
       | None => None
       end.

(** [open(path, 'w').write(...)] *)
Definition write (path : pystr) (f : file) (fs : t) : t := <[path := f]> fs.

(** [parse_webloc(filepath)]: the stored URL, [None] for anything that is not
    a shortcut.  Both scripts define it the same way. *)
Definition parse_webloc (fs : t) (filepath : pystr) : option pystr :=
  match fs !! filepath with
  | Some (Webloc _ url) => Some url
  | _ => None
  end.

(** Python truthiness of an optional string. *)
Definition truthy (o : option pystr) : bool :=
  match o with
  | Some (_ :: _) => true
  | _ => false
  end.

(** [find_webloc_files(directory)]: [walk] lists the paths in the order
    [os.walk] yields them. *)
Definition find_webloc_files (fs : t) (walk : list pystr) : list pystr :=
  List.filter (fun full_path => truthy (parse_webloc fs full_path)) walk.


End Fs.

(** ** change_webloc_names.py *)

Module Change.

Record rule : Type := {
  prefix : pystr;
  detect : pystr -> bool;
  suffix_cleaner : pystr -> pystr
}.

(** [re.search('(a|b)', str(p), re.I)] over literal alternatives. *)
Definition search (alternatives : list string) (p : pystr) : bool :=
  existsb (fun lit => ci_search (str lit) p) alternatives.

(** [PLATFORM_RULES], in the order the dict literal lists them. *)
Definition PLATFORM_RULES : list (string * rule) := [
  ("BILIBILI",
   {| prefix := str "       Bilibili - ";
      detect := search ["b23.tv"; "bilibili.com"];
      suffix_cleaner := fun n =>
        first (split (str "_哔哩哔哩_bilibili") (first (split (str "_哔哩哔哩bilibili") n))) |});
  ("YOUTUBE",
   {| prefix := str "       YouTube - ";
      detect := search ["youtu.be"; "youtube.com"];
      suffix_cleaner := fun n =>
        slice_to (-8) n |> split (str "• • 收看次數") |> first
                        |> replace (str " - YouTube") [] |});
  ("BAIKE",
   {| prefix := str "       百度百科 - ";
      detect := search ["baike.baidu.com"];
      suffix_cleaner := fun n => replace (str "_百度百科") [] n |});
  ("WIKIPEDIA",
   {| prefix := str "       Wikipedia - ";
      detect := search ["wikipedia.org"];
      suffix_cleaner := fun n =>
        n |> replace (str " - 維基百科, 自由的百科全書") []
          |> replace (str " 維基百科，自由的百科全書") [] |});
  ("GEEKSFORGEEKS",
   {| prefix := str "       GeeksforGeeks - ";
      detect := search ["geeksforgeeks.org"];
      suffix_cleaner := fun n => replace (str " | GeeksforGeeks") [] n |});
  ("STACKOVERFLOW",
   {| prefix := str "       StackOverflow - ";
      detect := search ["stackoverflow.com"];
      suffix_cleaner := fun n => replace (str " - Stack Overflow") [] n |});
  ("LATEX STACK EXCHANGE",
   {| prefix := str "       Latex StackExchange - ";
      detect := search ["tex.stackexchange.com"];
      suffix_cleaner := fun n => replace (str " - TeX - LaTeX Stack Exchange") [] n |});
  ("ZHIHU",
   {| prefix := str "       Zhihu - ";
      detect := search ["zhihu.com"];
      suffix_cleaner := fun n => replace (str " - 知乎") [] n |});
  ("CSDN",
   {| prefix := str "       CSDN - ";
      detect := search ["blog.csdn.net"];
      suffix_cleaner := fun n => replace (str "-CSDN博客") [] n |});
  ("HUGGINGFACE",
   {| prefix := str "       HuggingFace - ";
      detect := search ["huggingface.co"];
      suffix_cleaner := fun n => n |});
  ("BBC",
   {| prefix := str "       BBC - ";
      detect := search ["bbc.com"];
      suffix_cleaner := fun n =>
        n |> replace (str " - BBC News 中文") [] |> replace (str " - BBC News") [] |});
  ("PYTHON",
   {| prefix := str "       Python - ";
      detect := search ["python.org"];
      suffix_cleaner := fun n => n |});
  ("GITHUB",
   {| prefix := str "       Github - ";
      detect := search ["github.com"];
      suffix_cleaner := fun n => first (split (str " · ") n) |})
]%string.

(** [EMOJI_PATTERN]: the ranges of the character class, bounds included. *)
Definition EMOJI_RANGES : list (Z * Z) := [
  (0x1F600, 0x1F64F); (0x1F300, 0x1F5FF); (0x1F680, 0x1F6FF);
  (0x1F700, 0x1F77F); (0x1F780, 0x1F7FF); (0x1F800, 0x1F8FF);
  (0x1F900, 0x1F9FF); (0x1FA00, 0x1FA6F); (0x1FA70, 0x1FAFF);
  (0x2702, 0x27B0); (0x24C2, 0x257F); (0x2600, 0x26FF);
  (0x2700, 0x27BF); (0xFE00, 0xFE0F); (0x1F1E6, 0x1F1FF)
].

Definition is_emoji (c : Z) : bool :=
  existsb (fun '(lo, hi) => (lo <=? c) && (c <=? hi)) EMOJI_RANGES.

(** [EMOJI_PATTERN.sub('', s)]: every run of class characters is deleted. *)
Definition EMOJI_PATTERN_sub (s : pystr) : pystr :=
  List.filter (fun c => negb (is_emoji c)) s.

(** Step 1, lines 170-173: the URL used as the deduplication key. *)
Definition canonicalize (url : pystr) : pystr :=
  let url :=
    if startswith url (str "https://www.youtube.com/watch?")
    then first (split (str "&pp") url) else url in
  let url :=
    if startswith url (str "https://www.bilibili.com/video/")
    then url |> split (str "&vd_source=") |> first
             |> split (str "?vd_source=") |> first
             |> split (str "?spm_id_from=") |> first
    else url in
  url.

(** Step 2, line 188: the page title made fit for a file name. *)
Definition clean_title (title : pystr) : pystr :=
  title |> replace (str "/") (str "_") |> replace (str ":") (str "：")
        |> replace (str " - ") (str " ") |> replace (str " | ") (str " ")
        |> replace (str "｜") (str " ") |> replace (str "?") []
        |> replace (str "!") [] |> replace (str "- ") (str " ")
        |> replace (str " -") (str " ").

(** Lines 191-193 and 219-221: [if len(name) > max_length: name = name[:max_length]]. *)
Definition truncate (max_length : Z) (name : pystr) : pystr :=
  if max_length <? len name then slice_to max_length name else name.

Definition max_length_for (reserved_suffix_length directory_path_length : Z) : Z :=
  255 - reserved_suffix_length - directory_path_length.

(** Lines 204-205: the characters taken out before the site rules run. *)
Definition strip_chars (name : pystr) : pystr :=
  name |> replace (str "?") [] |> replace (str "!") [] |> replace (str "/") []
       |> replace (str "　") (str " ") |> EMOJI_PATTERN_sub.

(** The characters that lines 204-205 leave where they are. *)
Definition kept (c : Z) : bool :=
  negb (c =? 63) && negb (c =? 33) && negb (c =? 47) && negb (c =? 12288)
  && negb (is_emoji c).

(** The sanitizer of the specification: lines 204-205 followed by the length
    check of lines 219-221. *)
Definition sanitize (x : pystr) (reserved_suffix_length directory_path_length : Z) : pystr :=
  truncate (max_length_for reserved_suffix_length directory_path_length) (strip_chars x).

(** Lines 207-218: the first rule whose detector matches the URL rewrites the
    name; the [else] of the [for] runs when none does. *)
Fixpoint apply_rules (rules : list (string * rule)) (url step_2_filename step_3_filename : pystr)
  : pystr :=
  match rules with
  | [] => str "       Link - " ++ last (split (str " - ") step_2_filename)
  | (_, r) :: rules' =>
      if detect r url then
        let step_3_filename :=
          if negb (startswith step_2_filename (prefix r))
          then prefix r ++ last (split (str " - ") step_3_filename)
          else step_3_filename in
        suffix_cleaner r step_3_filename
      else apply_rules rules' url step_2_filename step_3_filename
  end.

Definition webloc : pystr := str ".webloc".

(** Lines 203-226: from the step-2 name and path to the final path. *)
Definition step_3 (url step_2_filename step_2_filepath : pystr) : pystr :=
  let step_3_filename := strip_chars step_2_filename in
  let step_3_filename := apply_rules PLATFORM_RULES url step_2_filename step_3_filename in
  let max_length := max_length_for (len webloc) (len (dirname step_2_filepath)) in
  let step_3_filename := truncate max_length step_3_filename in
  let step_3_filepath := join (dirname step_2_filepath) step_3_filename in
  if negb (endswith step_3_filepath webloc) then step_3_filepath ++ webloc
  else step_3_filepath.

(** Lines 188-195: the step-2 name and path when a title was fetched. *)
Definition step_2_name (filepath title : pystr) : pystr :=
  truncate (max_length_for (len webloc) (len (dirname filepath))) (clean_title title).

Definition step_2_path (filepath title : pystr) : pystr :=
  join (dirname filepath) (step_2_name filepath title).

(** The environment of a run: what the page-title fetcher answers for a URL
    ([None] for a failed fetch or a page without title), and whether the
    system refuses the n-th filesystem call of the run. *)
Record world : Type := {
  get_webpage_title : pystr -> option pystr;
  os_refuses : nat -> bool
}.

(** The variables of [main] that the loop updates, with the filesystem and
    the number of filesystem calls made so far. *)
Record state : Type := {
  url_map : gmap pystr pystr;
  fs : Fs.t;
  clock : nat;
  failed_instances : list pystr;
  total_count : nat
}.

(** What one iteration did, kept for the statements only. *)
Inductive fs_call : Type :=
  | CallRemove (path : pystr) (ok : bool)
  | CallTitleRename (src dst : pystr) (ok : bool)
  | CallFinalRename (src dst : pystr) (ok : bool).

Inductive verdict : Type :=
  | NoUrl
  | Duplicate (first_path : pystr)
  | Proceeded.

Record report : Type := {
  r_filepath : pystr;
  r_key : option pystr;
  r_verdict : verdict;
  r_calls : list fs_call
}.


(** Whether the call went through, and whether it names the path. *)
Definition call_ok (c : fs_call) : bool :=
  match c with
  | CallRemove _ ok | CallTitleRename _ _ ok | CallFinalRename _ _ ok => ok
  end.

Definition call_paths (c : fs_call) : list pystr :=
  match c with
  | CallRemove path _ => [path]
  | CallTitleRename src dst _ | CallFinalRename src dst _ => [src; dst]
  end.

(** Lines 181-200: step 2.  A refused title rename is printed and forgotten:
    [step_2_filepath] stays the new path. *)
Definition step_2 (w : world) (st : state) (filepath url : pystr)
  : pystr * pystr * Fs.t * nat * list fs_call :=
  match get_webpage_title w url with
  | Some ((_ :: _) as title) =>
      let step_2_filename := step_2_name filepath title in
      let step_2_filepath := step_2_path filepath title in
      match Fs.rename (os_refuses w (clock st)) filepath step_2_filepath (fs st) with
      | Some fs' =>
          (step_2_filename, step_2_filepath, fs', S (clock st),
           [CallTitleRename filepath step_2_filepath true])
      | None =>
          (step_2_filename, step_2_filepath, fs st, S (clock st),
           [CallTitleRename filepath step_2_filepath false])
      end
  | _ => (basename filepath, filepath, fs st, clock st, [])
  end.

(** Lines 163-231: the body of the loop for one path. *)
Definition process (w : world) (st : state) (filepath : pystr) : state * report :=
  match Fs.parse_webloc (fs st) filepath with
  | Some ((_ :: _) as url) =>
      let total_count := S (total_count st) in
      let url := canonicalize url in
      match url_map st !! url with
      | Some first_path =>
          match Fs.remove (os_refuses w (clock st)) filepath (fs st) with
          | Some fs' =>
              ({| url_map := url_map st; fs := fs'; clock := S (clock st);
                  failed_instances := failed_instances st;
                  total_count := total_count |},
               {| r_filepath := filepath; r_key := Some url;
                  r_verdict := Duplicate first_path;
                  r_calls := [CallRemove filepath true] |})
          | None =>
              ({| url_map := url_map st; fs := fs st; clock := S (clock st);
                  failed_instances := failed_instances st ++ [filepath];
                  total_count := total_count |},
               {| r_filepath := filepath; r_key := Some url;
                  r_verdict := Duplicate first_path;
                  r_calls := [CallRemove filepath false] |})
          end
      | None =>
          let url_map := <[url := filepath]> (url_map st) in
          let '(step_2_filename, step_2_filepath, fs2, clock2, calls2) :=
            step_2 w st filepath url in
          let step_3_filepath := step_3 url step_2_filename step_2_filepath in
          match Fs.rename (os_refuses w clock2) step_2_filepath step_3_filepath fs2 with
          | Some fs3 =>
              ({| url_map := url_map; fs := fs3; clock := S clock2;
                  failed_instances := failed_instances st;
                  total_count := total_count |},
               {| r_filepath := filepath; r_key := Some url; r_verdict := Proceeded;
                  r_calls := calls2 ++ [CallFinalRename step_2_filepath step_3_filepath true] |})
          | None =>
              ({| url_map := url_map; fs := fs2; clock := S clock2;
                  failed_instances := failed_instances st ++ [filepath];
                  total_count := total_count |},
               {| r_filepath := filepath; r_key := Some url; r_verdict := Proceeded;
                  r_calls := calls2 ++ [CallFinalRename step_2_filepath step_3_filepath false] |})
          end
      end
  | _ =>
      (st, {| r_filepath := filepath; r_key := None; r_verdict := NoUrl; r_calls := [] |})
  end.

(** Line 162: the loop over the files found. *)
Fixpoint loop (w : world) (st : state) (valid_webloc_files : list pystr)
  : state * list report :=
  match valid_webloc_files with
  | [] => (st, [])
  | filepath :: rest =>
      let '(st1, r) := process w st filepath in
      let '(st2, rs) := loop w st1 rest in
      (st2, r :: rs)
  end.

Definition initial (fs0 : Fs.t) : state :=
  {| url_map := ∅; fs := fs0; clock := O; failed_instances := []; total_count := O |}.

(** [main()]: [walk] is what [os.walk(directory)] lists.  With no file found
    the loop does not start, as after the early [return]. *)
Definition main (w : world) (fs0 : Fs.t) (walk : list pystr) : state * list report :=
  loop w (initial fs0) (Fs.find_webloc_files fs0 walk).

End Change.

(** ** slim_webloc_names.py *)

Module Slim.

(** A Python dict with string keys: insertion order is kept, and assigning
    to a present key keeps its place. *)
Abbreviation dict := (list (pystr * pystr)).

Fixpoint dict_set (k v : pystr) (d : dict) : dict :=
  match d with
  | [] => [(k, v)]
  | (k', v') :: d' => if eqb k k' then (k, v) :: d' else (k', v') :: dict_set k v d'
  end.

Fixpoint dict_get (k : pystr) (d : dict) : option pystr :=
  match d with
  | [] => None
  | (k', v) :: d' => if eqb k k' then Some v else dict_get k d'
  end.

(** One element of the list the service answered: a dict with a
    ['simplified'] key, or a bare string, which line 109 keeps as it is. *)
Inductive entry : Type :=
  | WithSimplified (simplified : pystr)
  | Bare (name : pystr).

(** What one call of the service gives: an exception anywhere between the
    request and [json.loads], or the parsed list. *)
Inductive reply : Type :=
  | Raises
  | Parsed (simplified_batch : list entry).

(** The environment: the answer to the n-th request, whether the system
    refuses the n-th filesystem call, and what the user types at the prompt. *)
Record world : Type := {
  service : nat -> reply;
  os_refuses : nat -> bool;
  confirmation : pystr
}.

Record batch_dict : Type := {
  id : nat;
  filenames : list pystr;
  attempts : nat
}.

(** [math.ceil(len(filepaths) / batch_size)]; [None] is the
    [ZeroDivisionError].  A negative size gives no batch at all. *)
Definition ceil_div (n batch_size : Z) : option nat :=
  if batch_size =? 0 then None
  else if batch_size <? 0 then Some O
  else Some (Z.to_nat ((n + batch_size - 1) / batch_size)).

(** Lines 40-41 *)
Definition make_batches (filepaths : list pystr) (batch_size : Z) (count : nat)
  : list batch_dict :=
  List.map
    (fun i => {| id := i;
                 filenames := take (Z.to_nat batch_size)
                                   (drop (i * Z.to_nat batch_size) filepaths);
                 attempts := O |})
    (seq O count).

(** Lines 72-75: the part of the file name sent to the service and the
    prefix put back afterwards. *)
Definition name_and_prefix (filepath : pystr) : pystr * pystr :=
  let basename := fst (splitext (basename filepath)) in
  let basename_split := split (str " - ") basename in
  (last basename_split,
   if (1 <? length basename_split)%nat then first basename_split else []).

Definition file_prefix_list_of (batch : list pystr) : list (pystr * pystr) :=
  List.map (fun filepath => (filepath, snd (name_and_prefix filepath))) batch.

Definition simplified_of (e : entry) : pystr :=
  match e with
  | WithSimplified s => s
  | Bare s => s
  end.

(** Line 112: [if prefix: simplified_name = f"{prefix} - {simplified_name}"] *)
Definition with_prefix (prefix simplified_name : pystr) : pystr :=
  match prefix with
  | _ :: _ => prefix ++ str " - " ++ simplified_name
  | [] => simplified_name
  end.

(** Lines 107-113: [true] when [file_prefix_list[i]] raised [IndexError];
    the assignments made before it stay. *)
Fixpoint update_names (i : nat) (simplified_batch : list entry)
    (file_prefix_list : list (pystr * pystr)) (simplified_names : dict) : dict * bool :=
  match simplified_batch with
  | [] => (simplified_names, false)
  | e :: rest =>
      match file_prefix_list !! i with
      | None => (simplified_names, true)
      | Some (filepath, prefix) =>
          let simplified_name := with_prefix prefix (simplified_of e) in
          update_names (S i) rest file_prefix_list
                       (dict_set filepath simplified_name simplified_names)
      end
  end.

(** The variables of the [while] loop, the number of requests sent, and the
    ids of the batches attempted, oldest first (kept for the statements). *)
Record queue_state : Type := {
  batched_filepaths : list batch_dict;
  simplified_names : dict;
  failed_instances : list pystr;
  requests : nat;
  attempted : list nat
}.

(** Lines 121-128: the handler. *)
Definition on_exception (b : batch_dict) (rest : list batch_dict)
    (names : dict) (st : queue_state) : queue_state :=
  let attempts := S (attempts b) in
  if (attempts <? 1)%nat
  then {| batched_filepaths := rest ++ [{| id := id b; filenames := filenames b;
                                           attempts := attempts |}];
          simplified_names := names;
          failed_instances := failed_instances st;
          requests := S (requests st);
          attempted := attempted st ++ [id b] |}
  else {| batched_filepaths := rest;
          simplified_names := names;
          failed_instances := failed_instances st ++ filenames b;
          requests := S (requests st);
          attempted := attempted st ++ [id b] |}.

(** Lines 46-128: one turn of the [while] loop, the queue not being empty. *)
Definition turn (w : world) (b : batch_dict) (rest : list batch_dict) (st : queue_state)
  : queue_state :=
  match service w (requests st) with
  | Raises => on_exception b rest (simplified_names st) st
  | Parsed simplified_batch =>
      match update_names O simplified_batch (file_prefix_list_of (filenames b))
                         (simplified_names st) with
      | (names, true) => on_exception b rest names st
      | (names, false) =>
          {| batched_filepaths := rest;
             simplified_names := names;
             failed_instances := failed_instances st;
             requests := S (requests st);
             attempted := attempted st ++ [id b] |}
      end
  end.

(** Line 45: the [while] loop; [None] when [fuel] turns were not enough to
    empty the queue. *)
Fixpoint while_loop (fuel : nat) (w : world) (st : queue_state) : option queue_state :=
  match batched_filepaths st with
  | [] => Some st
  | b :: rest =>
      match fuel with
      | O => None
      | S fuel' => while_loop fuel' w (turn w b rest st)
      end
  end.

(** What a call of [simplify_filenames] ends in. *)
Inductive result : Type :=
  | Returned (final : queue_state)
  | ZeroDivisionError
  | OutOfFuel.

(** [simplify_filenames(filepaths, api_key, batch_size)]: one turn of fuel
    for each batch. *)
Definition simplify_filenames (w : world) (filepaths : list pystr) (batch_size : Z)
  : result :=
  match ceil_div (Z.of_nat (length filepaths)) batch_size with
  | None => ZeroDivisionError
  | Some count =>
      let batches := make_batches filepaths batch_size count in
      match while_loop (length batches) w
              {| batched_filepaths := batches; simplified_names := [];
                 failed_instances := []; requests := O; attempted := [] |} with
      | Some st => Returned st
      | None => OutOfFuel
      end
  end.

(** What [rename_webloc_files] and [main] print about files. *)
Inductive line : Type :=
  | WouldRename (original_name new_name : pystr)
  | Renamed (original_name new_name : pystr)
  | ErrorRenaming (original_name : pystr)
  | FailedInstance (path : pystr).


(** Lines 139-152: the name and the path the file is to get. *)
Definition new_name_of (original_path simplified_name : pystr) : pystr :=
  let original_name := basename original_path in
  let extension := snd (splitext original_name) in
  let new_name := simplified_name ++ extension in
  if 255 <? len new_name then slice_to 250 new_name ++ extension else new_name.

Definition new_path_of (original_path simplified_name : pystr) : pystr :=
  join (dirname original_path) (new_name_of original_path simplified_name).

(** The state of [rename_webloc_files]: the filesystem, the number of
    filesystem calls made, the list returned, what was printed, and the
    [os.rename] calls made with their outcome (kept for the statements). *)
Record rename_state : Type := {
  fs : Fs.t;
  clock : nat;
  renames_failed : list pystr;
  printed : list line;
  calls : list (pystr * pystr * bool)
}.

(** What a recorded call was about, and the items of the dict that
    [rename_webloc_files] does not skip. *)
Definition call_src (c : pystr * pystr * bool) : pystr := fst (fst c).
Definition call_failed (c : pystr * pystr * bool) : bool := negb (snd c).
Definition has_name (item : pystr * pystr) : bool :=
  match snd item with
  | [] => false
  | _ :: _ => true
  end.

(** Lines 135-161: the body of the loop of [rename_webloc_files]. *)
Definition rename_one (w : world) (dry_run : bool) (st : rename_state)
    (item : pystr * pystr) : rename_state :=
  let '(original_path, simplified_name) := item in
  match simplified_name with
  | [] => st
  | _ :: _ =>
      let original_name := basename original_path in
      let new_name := new_name_of original_path simplified_name in
      let new_path := new_path_of original_path simplified_name in
      if dry_run then
        {| fs := fs st; clock := clock st; renames_failed := renames_failed st;
           printed := printed st ++ [WouldRename original_name new_name];
           calls := calls st |}
      else
        match Fs.rename (os_refuses w (clock st)) original_path new_path (fs st) with
        | Some fs' =>
            {| fs := fs'; clock := S (clock st); renames_failed := renames_failed st;
               printed := printed st ++ [Renamed original_name new_name];
               calls := calls st ++ [(original_path, new_path, true)] |}
        | None =>
            {| fs := fs st; clock := S (clock st);
               renames_failed := renames_failed st ++ [original_path];
               printed := printed st ++ [ErrorRenaming original_name];
               calls := calls st ++ [(original_path, new_path, false)] |}
        end
  end.

(** [rename_webloc_files(simplified_names, dry_run)] *)
Definition rename_webloc_files (w : world) (dry_run : bool) (simplified_names : dict)
    (fs0 : Fs.t) : rename_state :=
  fold_left (rename_one w dry_run) simplified_names
            {| fs := fs0; clock := O; renames_failed := []; printed := [];
               calls := [] |}.

(** What a run of [main] leaves: the filesystem and the lines printed about
    files, or the exception that ended it. *)
Inductive run : Type :=
  | Finished (fs : Fs.t) (printed : list line)
  | Crashed.

(** [main()], from line 187 on; [walk] is what [os.walk(directory)] lists. *)
Definition main (w : world) (fs0 : Fs.t) (walk : list pystr) (batch_size : Z)
    (dry_run : bool) : run :=
  let valid_webloc_files := Fs.find_webloc_files fs0 walk in
  match valid_webloc_files with
  | [] => Finished fs0 []
  | _ :: _ =>
      match simplify_filenames w valid_webloc_files batch_size with
      | ZeroDivisionError | OutOfFuel => Crashed
      | Returned q =>
          match simplified_names q with
          | [] => Finished fs0 []
          | _ :: _ =>
              if negb dry_run
                 && negb (eqb (confirmation w) (str "y") || eqb (confirmation w) (str "Y"))
              then Finished fs0 []
              else
                let r := rename_webloc_files w dry_run (simplified_names q) fs0 in
                let failed_instances := failed_instances q ++ renames_failed r in
                match failed_instances with
                | [] => Finished (fs r) (printed r)
                | _ :: _ =>
                    Finished (Fs.write (str "failed.py") (Fs.Script failed_instances) (fs r))
                             (printed r ++ List.map FailedInstance failed_instances)
                end
          end
      end
  end.

End Slim.

(** * Properties *)

#[global] Arguments str : simpl never.
#[global] Arguments split : simpl never.
#[global] Arguments replace : simpl never.
#[global] Arguments Change.canonicalize : simpl never.

(** ** Prefixes, suffixes and the first segment of a split *)

Section StringFacts.

Implicit Types s p sep t r : pystr.

Lemma startswith_spec s p : startswith s p = true <-> p `prefix_of` s.
Proof.
  revert s; induction p as [|x p IH]; intros s; simpl.
  - split; [intros _; apply prefix_nil | done].
  - destruct s as [|y s].
    + split; [done | intros H; by apply prefix_nil_not in H].
    + rewrite andb_true_iff, Z.eqb_eq, IH. split.
      * intros [-> H]. by apply prefix_cons.
      * intros H. split; [by apply prefix_cons_inv_1 in H | by apply prefix_cons_inv_2 in H].
Qed.

Lemma startswith_app s p : startswith (p ++ s) p = true.
Proof. apply startswith_spec. by apply prefix_app_r. Qed.

Lemma startswith_mono s t p :
  t `prefix_of` s -> startswith t p = true -> startswith s p = true.
Proof. rewrite !startswith_spec. intros Hts Hpt. by etrans. Qed.

Lemma startswith_false_prefix s t p :
  t `prefix_of` s -> startswith s p = false -> startswith t p = false.
Proof.
  intros Hts Hs. destruct (startswith t p) eqn:Ht; [|done].
  rewrite (startswith_mono s t p Hts Ht) in Hs. done.
Qed.

Lemma endswith_spec s p : endswith s p = true <-> p `suffix_of` s.
Proof.
  unfold endswith. by rewrite startswith_spec, suffix_prefix_reverse.
Qed.

Lemma endswith_app s p : endswith (s ++ p) p = true.
Proof. apply endswith_spec. by apply suffix_app_r. Qed.

Lemma first_split_nil sep : first (split sep []) = [].
Proof. reflexivity. Qed.

Lemma first_split_cons sep c s :
  first (split sep (c :: s)) =
  if startswith (c :: s) sep then [] else c :: first (split sep s).
Proof.
  unfold first, split. simpl split_from.
  destruct (startswith (c :: s) sep); [done|].
  by destruct (split_from sep 0 s).
Qed.

(** The first segment is a prefix of the string. *)
Lemma first_split_prefix sep s : first (split sep s) `prefix_of` s.
Proof.
  induction s as [|c s IH]; [done|].
  rewrite first_split_cons. destruct (startswith (c :: s) sep).
  - apply prefix_nil.
  - by apply prefix_cons.
Qed.

(** A string in which the separator does not occur is its own first
    segment, and so is each of its prefixes. *)
Lemma first_split_fixed_prefix sep t r :
  t `prefix_of` r -> first (split sep r) = r -> first (split sep t) = t.
Proof.
  revert r; induction t as [|c t IH]; intros r Hpre Hr; [done|].
  destruct r as [|c' r]; [by apply prefix_nil_not in Hpre|].
  pose proof (prefix_cons_inv_1 _ _ _ _ Hpre) as ->.
  pose proof (prefix_cons_inv_2 _ _ _ _ Hpre) as Htr.
  rewrite first_split_cons in Hr.
  destruct (startswith (c' :: r) sep) eqn:Hs; [done|].
  injection Hr as Hr.
  rewrite first_split_cons, (startswith_false_prefix _ _ _ Hpre Hs).
  f_equal. by apply (IH r).
Qed.

Lemma first_split_idempotent sep s :
  first (split sep (first (split sep s))) = first (split sep s).
Proof.
  induction s as [|c s IH]; [done|].
  rewrite first_split_cons.
  destruct (startswith (c :: s) sep) eqn:Hs; [done|].
  rewrite first_split_cons.
  rewrite (startswith_false_prefix (c :: s) (c :: first (split sep s)) sep);
    [by rewrite IH | | done].
  apply prefix_cons, first_split_prefix.
Qed.

End StringFacts.

(** ** Step 1: the deduplication key *)

Section Canonicalize.

Import Change.

Let youtube : pystr := str "https://www.youtube.com/watch?".
Let bilibili : pystr := str "https://www.bilibili.com/video/".

(** No string starts with both URL shapes. *)
Lemma youtube_not_bilibili (u : pystr) :
  startswith u youtube = true -> startswith u bilibili = false.
Proof.
  intros Hy. destruct (startswith u bilibili) eqn:Hb; [|done].
  apply startswith_spec in Hy as [x Hx]. apply startswith_spec in Hb as [y Hy].
  subst u. vm_compute in Hy. discriminate Hy.
Qed.

Lemma canonicalize_unfold (u : pystr) :
  canonicalize u =
  let u1 := if startswith u youtube then first (split (str "&pp") u) else u in
  if startswith u1 bilibili
  then first (split (str "?spm_id_from=")
         (first (split (str "?vd_source=") (first (split (str "&vd_source=") u1))))) 
  else u1.
Proof. reflexivity. Qed.

(** A string that neither test of step 1 changes. *)
Lemma canonicalize_fixed (c : pystr) :
  (startswith c youtube = true -> first (split (str "&pp") c) = c) ->
  (startswith c bilibili = true ->
     first (split (str "&vd_source=") c) = c /\
     first (split (str "?vd_source=") c) = c /\
     first (split (str "?spm_id_from=") c) = c) ->
  canonicalize c = c.
Proof.
  intros Hy Hb. rewrite canonicalize_unfold. cbv zeta.
  destruct (startswith c youtube) eqn:Ey.
  - rewrite (Hy eq_refl), (youtube_not_bilibili c Ey). reflexivity.
  - destruct (startswith c bilibili) eqn:Eb; [|reflexivity].
    destruct (Hb eq_refl) as (H1 & H2 & H3). rewrite H1, H2, H3. reflexivity.
Qed.

End Canonicalize.

(** C7. Step 1 of [change_webloc_names.py] is idempotent: the key computed
    from a key is that key, for every URL string, whether or not it has the
    YouTube or the Bilibili shape. *)
Theorem canonicalize_idempotent (u : pystr) :
  Change.canonicalize (Change.canonicalize u) = Change.canonicalize u.
Proof.
  set (yt := str "https://www.youtube.com/watch?").
  set (bl := str "https://www.bilibili.com/video/").
  destruct (startswith u yt) eqn:Ey.
  - (* YouTube shape: the key is the part before the first "&pp" *)
    assert (Hc : Change.canonicalize u = first (split (str "&pp") u)).
    { rewrite canonicalize_unfold. cbv zeta. fold yt bl. rewrite Ey.
      rewrite (startswith_false_prefix u _ bl (first_split_prefix _ u)); [reflexivity|].
      exact (youtube_not_bilibili u Ey). }
    rewrite Hc. apply canonicalize_fixed.
    + intros _. apply first_split_idempotent.
    + intros Hb. fold bl in Hb.
      rewrite (startswith_false_prefix u _ bl (first_split_prefix _ u)) in Hb;
        [discriminate Hb|].
      exact (youtube_not_bilibili u Ey).
  - destruct (startswith u bl) eqn:Eb.
    + (* Bilibili shape: three cuts, each a prefix of the one before *)
      set (a := first (split (str "&vd_source=") u)).
      set (b := first (split (str "?vd_source=") a)).
      set (c := first (split (str "?spm_id_from=") b)).
      assert (Hc : Change.canonicalize u = c).
      { rewrite canonicalize_unfold. cbv zeta. fold yt bl. rewrite Ey, Eb. reflexivity. }
      assert (Hcb : c `prefix_of` b) by apply first_split_prefix.
      assert (Hba : b `prefix_of` a) by apply first_split_prefix.
      assert (Hau : a `prefix_of` u) by apply first_split_prefix.
      rewrite Hc. apply canonicalize_fixed.
      * intros Hy. fold yt in Hy.
        rewrite (startswith_false_prefix u c yt) in Hy; [discriminate Hy| |exact Ey].
        etrans; [exact Hcb|]. etrans; [exact Hba|]. exact Hau.
      * intros _. split_and!.
        -- apply (first_split_fixed_prefix _ c a); [etrans; [exact Hcb|exact Hba]|].
           apply first_split_idempotent.
        -- apply (first_split_fixed_prefix _ c b); [exact Hcb|].
           apply first_split_idempotent.
        -- apply first_split_idempotent.
    + assert (Hc : Change.canonicalize u = u)
        by (apply canonicalize_fixed; fold yt bl; congruence).
      rewrite !Hc. reflexivity.
Qed.

(** ** Replacing one character, and the characters step 3 takes out *)

Section Sanitizer.

Import Change.

Lemma replace_char_cons (a : Z) (new : pystr) (c : Z) (s : pystr) :
  replace [a] new (c :: s) = (if a =? c then new else [c]) ++ replace [a] new s.
Proof.
  unfold replace. simpl. rewrite andb_true_r.
  destruct (a =? c); reflexivity.
Qed.

Lemma replace_char_nil (a : Z) (new : pystr) : replace [a] new [] = [].
Proof. reflexivity. Qed.

Lemma strip_chars_nil : strip_chars [] = [].
Proof. reflexivity. Qed.

Lemma strip_chars_cons (c : Z) (s : pystr) :
  strip_chars (c :: s) =
  (if kept c then [c] else if c =? 12288 then [32] else []) ++ strip_chars s.
Proof.
  unfold strip_chars, kept.
  change (str "?") with [63]; change (str "!") with [33];
    change (str "/") with [47]; change (str "　") with [12288];
    change (str " ") with [32].
  rewrite (replace_char_cons 63 [] c s), (Z.eqb_sym 63 c).
  destruct (c =? 63) eqn:E63; [apply Z.eqb_eq in E63; subst c; reflexivity|].
  cbn [app negb andb].
  rewrite (replace_char_cons 33 [] c), (Z.eqb_sym 33 c).
  destruct (c =? 33) eqn:E33; [apply Z.eqb_eq in E33; subst c; reflexivity|].
  cbn [app negb andb].
  rewrite (replace_char_cons 47 [] c), (Z.eqb_sym 47 c).
  destruct (c =? 47) eqn:E47; [apply Z.eqb_eq in E47; subst c; reflexivity|].
  cbn [app negb andb].
  rewrite (replace_char_cons 12288 [32] c), (Z.eqb_sym 12288 c).
  destruct (c =? 12288) eqn:Efw; cbn [app negb andb].
  - apply Z.eqb_eq in Efw; subst c; reflexivity.
  - unfold EMOJI_PATTERN_sub. cbn [List.filter].
    destruct (is_emoji c); reflexivity.
Qed.

Lemma strip_chars_kept (s : pystr) : forallb kept (strip_chars s) = true.
Proof.
  induction s as [|c s IH]; [reflexivity|].
  rewrite strip_chars_cons.
  destruct (kept c) eqn:Ek; [by cbn; rewrite Ek, IH|].
  destruct (c =? 12288); exact IH.
Qed.

Lemma strip_chars_fixed (s : pystr) : forallb kept s = true -> strip_chars s = s.
Proof.
  induction s as [|c s IH]; [reflexivity|].
  cbn [forallb]. rewrite andb_true_iff. intros [Hc Hs].
  rewrite strip_chars_cons, Hc, (IH Hs). reflexivity.
Qed.

Lemma forallb_take {A} (f : A -> bool) (n : nat) (l : list A) :
  forallb f l = true -> forallb f (take n l) = true.
Proof.
  revert n; induction l as [|x l IH]; intros [|n]; try reflexivity.
  cbn [forallb take]. rewrite !andb_true_iff. intros [Hx Hl]. split; [exact Hx|].
  by apply IH.
Qed.

(** With a budget that is not negative, [truncate] keeps a prefix of at most
    that many characters. *)
Lemma truncate_take (m : Z) (s : pystr) :
  0 <= m -> truncate m s = take (Z.to_nat m) s.
Proof.
  intros Hm. unfold truncate, slice_to, len.
  destruct (m <? Z.of_nat (length s)) eqn:E.
  - destruct (m <? 0) eqn:E0; [lia | reflexivity].
  - rewrite take_ge; [reflexivity | lia].
Qed.

Lemma truncate_within (m : Z) (s : pystr) : 0 <= m -> len (truncate m s) <= m.
Proof.
  intros Hm. rewrite truncate_take by exact Hm.
  unfold len. rewrite length_take. lia.
Qed.

(** The length invariant of the sanitizer, for a directory that leaves room
    for a name. *)
Lemma sanitize_within_budget (x : pystr) (r d : Z) :
  r + d <= 255 -> len (sanitize x r d) + r + d <= 255.
Proof.
  intros H. unfold sanitize, max_length_for.
  pose proof (truncate_within (255 - r - d) (strip_chars x)). lia.
Qed.

(** Idempotence of the sanitizer, under the same condition. *)
Lemma sanitize_idempotent_within_budget (x : pystr) (r d : Z) :
  r + d <= 255 -> sanitize (sanitize x r d) r d = sanitize x r d.
Proof.
  intros H. unfold sanitize, max_length_for.
  rewrite !(truncate_take (255 - r - d)) by lia.
  rewrite strip_chars_fixed.
  - apply take_idemp.
  - apply forallb_take, strip_chars_kept.
Qed.

End Sanitizer.

(** C8. The sanitizer is not idempotent when the directory path leaves a
    negative budget: with a directory of 249 characters [max_length] is -1,
    and [name[:max_length]] then drops the last character at every pass. *)
Theorem sanitize_twice_differs_negative_budget :
  Change.max_length_for 7 249 = -1 /\
  Change.sanitize (str "ab") 7 249 = str "a" /\
  Change.sanitize (Change.sanitize (str "ab") 7 249) 7 249 = [] /\
  Change.sanitize (Change.sanitize (str "ab") 7 249) 7 249
    <> Change.sanitize (str "ab") 7 249.
Proof. vm_compute. split_and!; congruence. Qed.

(** ** The name and the path handed to [os.rename] *)

Section Destination.

Lemma join_suffix (a b : pystr) : b `suffix_of` join a b.
Proof.
  unfold join. destruct (startswith b [slash]); [done|].
  destruct (eqb a [] || endswith a [slash]).
  - by apply suffix_app_r.
  - change (a ++ slash :: b) with (a ++ [slash] ++ b).
    rewrite app_assoc. by apply suffix_app_r.
Qed.

Lemma step_3_endswith (url step_2_filename step_2_filepath : pystr) :
  endswith (Change.step_3 url step_2_filename step_2_filepath) Change.webloc = true.
Proof.
  unfold Change.step_3. cbv zeta.
  match goal with |- context [negb (endswith ?p Change.webloc)] =>
    destruct (endswith p Change.webloc) eqn:E end.
  - exact E.
  - apply endswith_app.
Qed.

Lemma new_name_suffix (original_path simplified_name : pystr) :
  snd (splitext (basename original_path))
    `suffix_of` Slim.new_name_of original_path simplified_name.
Proof.
  unfold Slim.new_name_of. cbv zeta.
  match goal with |- context [if ?c then _ else _] => destruct c end;
    by apply suffix_app_r.
Qed.

Lemma new_path_endswith (original_path simplified_name : pystr) :
  endswith (Slim.new_path_of original_path simplified_name)
           (snd (splitext (basename original_path))) = true.
Proof.
  apply endswith_spec. unfold Slim.new_path_of.
  etrans; [apply new_name_suffix | apply join_suffix].
Qed.

(** After the cut to 250 characters the extension comes on top. *)
Lemma hard_truncation_length (original_path simplified_name : pystr) :
  let extension := snd (splitext (basename original_path)) in
  255 < len (simplified_name ++ extension) ->
  len (Slim.new_name_of original_path simplified_name) = 250 + len extension.
Proof.
  intros extension H. unfold Slim.new_name_of. cbv zeta. fold extension.
  apply Z.ltb_lt in H as H'. rewrite H'.
  unfold len in *. rewrite length_app. unfold slice_to.
  change (250 <? 0) with false. cbv iota.
  rewrite length_take. unfold len. lia.
Qed.

(** Each iteration of [rename_webloc_files] adds at most one call, whose
    destination is the computed path. *)
Lemma rename_one_calls (w : Slim.world) (dry_run : bool) (st : Slim.rename_state)
    (original_path simplified_name : pystr) :
  let st' := Slim.rename_one w dry_run st (original_path, simplified_name) in
  Slim.calls st' = Slim.calls st \/
  exists ok, Slim.calls st' =
             Slim.calls st ++ [(original_path,
                                Slim.new_path_of original_path simplified_name, ok)].
Proof.
  unfold Slim.rename_one. destruct simplified_name as [|c n]; [by left|].
  destruct dry_run; [by left|].
  destruct (Fs.rename _ _ _ _); right; eexists; reflexivity.
Qed.

Lemma rename_loop_calls (w : Slim.world) (dry_run : bool) (names : Slim.dict)
    (st : Slim.rename_state) (P : pystr * pystr * bool -> Prop) :
  (forall original_path simplified_name ok,
      P (original_path, Slim.new_path_of original_path simplified_name, ok)) ->
  Forall P (Slim.calls st) ->
  Forall P (Slim.calls (fold_left (Slim.rename_one w dry_run) names st)).
Proof.
  intros HP. revert st. induction names as [|[p n] names IH]; intros st Hst; [exact Hst|].
  cbn [fold_left]. apply IH.
  destruct (rename_one_calls w dry_run st p n) as [-> | [ok ->]]; [exact Hst|].
  apply Forall_app. split; [exact Hst|]. apply Forall_singleton, HP.
Qed.

Lemma process_final_rename (w : Change.world) (st : Change.state) (filepath : pystr)
    (src dst : pystr) (ok : bool) :
  In (Change.CallFinalRename src dst ok) (Change.r_calls (snd (Change.process w st filepath))) ->
  exists url name, dst = Change.step_3 url name src.
Proof.
  unfold Change.process.
  destruct (Fs.parse_webloc (Change.fs st) filepath) as [[|c url]|]; cbn; [tauto| |tauto].
  destruct (Change.url_map st !! Change.canonicalize (c :: url)).
  - destruct (Fs.remove _ _ _); cbn; intros [H|[]]; discriminate H.
  - destruct (Change.step_2 w st filepath (Change.canonicalize (c :: url)))
      as [[[[n2 p2] fs2] clock2] calls2] eqn:E2.
    assert (Hc2 : forall s d o, ~ In (Change.CallFinalRename s d o) calls2).
    { unfold Change.step_2 in E2.
      destruct (Change.get_webpage_title w _) as [[|? ?]|];
        [injection E2 as <- <- <- <- <-; intros ? ? ? [] | | 
         injection E2 as <- <- <- <- <-; intros ? ? ? []].
      destruct (Fs.rename _ _ _ _); injection E2 as <- <- <- <- <-;
        intros ? ? ? [H|[]]; discriminate H. }
    destruct (Fs.rename _ p2 _ fs2); cbn; rewrite in_app_iff;
      (intros [H|[H|[]]]; [by apply Hc2 in H|]);
      injection H as <- <- <-; eauto.
Qed.

End Destination.

(** C10. The destination of every final rename keeps the extension: in
    [change_webloc_names.py] it ends with ".webloc", whatever the file, the
    title and the state; in [slim_webloc_names.py] it ends with the extension
    of the file being renamed, with or without the hard truncation. *)
Theorem final_rename_keeps_extension :
  (forall (w : Change.world) (st : Change.state) (filepath src dst : pystr) (ok : bool),
      In (Change.CallFinalRename src dst ok)
         (Change.r_calls (snd (Change.process w st filepath))) ->
      endswith dst (str ".webloc") = true) /\
  (forall (w : Slim.world) (dry_run : bool) (simplified_names : Slim.dict) (fs0 : Fs.t)
          (src dst : pystr) (ok : bool),
      In (src, dst, ok)
         (Slim.calls (Slim.rename_webloc_files w dry_run simplified_names fs0)) ->
      endswith dst (snd (splitext (basename src))) = true).
Proof.
  split.
  - intros w st filepath src dst ok H.
    destruct (process_final_rename w st filepath src dst ok H) as (url & name & ->).
    apply step_3_endswith.
  - intros w dry_run names fs0 src dst ok H.
    unfold Slim.rename_webloc_files in H.
    pose proof (rename_loop_calls w dry_run names
                  {| Slim.fs := fs0; Slim.clock := 0; Slim.renames_failed := [];
                     Slim.printed := []; Slim.calls := [] |}
                  (fun '(s, d, _) => endswith d (snd (splitext (basename s))) = true)) as HF.
    cbn beta in HF.
    assert (HP : forall p n (o : bool),
               endswith (Slim.new_path_of p n) (snd (splitext (basename p))) = true)
      by (intros; apply new_path_endswith).
    specialize (HF HP (Forall_nil_2 _)).
    rewrite Forall_forall in HF. apply list_elem_of_In in H.
    exact (HF _ H).
Qed.

(** C4. The hard truncation of [rename_webloc_files] does not keep the name
    within 255 characters: a simplified name of 300 characters for
    [/d/a.webloc] is cut to 250 characters and gets ".webloc" back, 257
    characters in all, and that is the name of the path handed to
    [os.rename]. *)
Theorem hard_truncation_exceeds_limit :
  let simplified_name := repeat 97 300 in
  let new_name := Slim.new_name_of (str "/d/a.webloc") simplified_name in
  len new_name = 257 /\
  255 < len new_name /\
  Slim.new_path_of (str "/d/a.webloc") simplified_name = str "/d/" ++ new_name.
Proof. vm_compute. split_and!; congruence. Qed.

(** ** The work queue of [simplify_filenames] *)

Section Queue.

Import Slim.

Variable w : world.

(** After the increment the counter is at least 1, so the handler never
    puts the batch back. *)
Lemma on_exception_spec (b : batch_dict) (rest : list batch_dict) (names : dict)
    (st : queue_state) :
  on_exception b rest names st =
  {| batched_filepaths := rest; simplified_names := names;
     failed_instances := failed_instances st ++ filenames b;
     requests := S (requests st); attempted := attempted st ++ [id b] |}.
Proof. reflexivity. Qed.

Lemma turn_pops (b : batch_dict) (rest : list batch_dict) (st : queue_state) :
  batched_filepaths (turn w b rest st) = rest /\
  attempted (turn w b rest st) = attempted st ++ [id b] /\
  requests (turn w b rest st) = S (requests st).
Proof.
  unfold turn. destruct (service w (requests st)) as [|entries].
  - rewrite on_exception_spec. done.
  - destruct (update_names 0 entries _ _) as [names [|]].
    + rewrite on_exception_spec. done.
    + done.
Qed.

(** One turn of fuel for each queued batch empties the queue, whatever the
    service answers; the batches are attempted in queue order, once each. *)
Lemma while_loop_enough (fuel : nat) (st : queue_state) :
  (length (batched_filepaths st) <= fuel)%nat ->
  exists st',
    while_loop fuel w st = Some st' /\
    batched_filepaths st' = [] /\
    attempted st' = attempted st ++ List.map id (batched_filepaths st) /\
    requests st' = (requests st + length (batched_filepaths st))%nat.
Proof.
  revert st. induction fuel as [|fuel IH]; intros st Hlen.
  - destruct (batched_filepaths st) as [|b rest] eqn:Eq; [|cbn in Hlen; lia].
    exists st. cbn. rewrite Eq. rewrite app_nil_r. split_and!; [done|done|done|cbn; lia].
  - destruct (batched_filepaths st) as [|b rest] eqn:Eq.
    + exists st. cbn. rewrite Eq, app_nil_r. split_and!; [done|done|done|cbn; lia].
    + destruct (turn_pops b rest st) as (Hq & Ha & Hr).
      destruct (IH (turn w b rest st)) as (st' & Hrun & Hq' & Ha' & Hr').
      { rewrite Hq. cbn in Hlen. lia. }
      exists st'. cbn [while_loop]. rewrite Eq. split_and!; [exact Hrun|exact Hq'| |].
      * rewrite Ha', Ha, Hq. cbn [List.map]. by rewrite <- app_assoc.
      * rewrite Hr', Hr, Hq. cbn [length]. lia.
Qed.

(** When every request fails, every queued file is reported, in order, and
    no name is recorded. *)
Lemma while_loop_all_fail (fuel : nat) (st st' : queue_state) :
  (forall n, service w n = Raises) ->
  while_loop fuel w st = Some st' ->
  failed_instances st' =
    failed_instances st ++ concat (List.map filenames (batched_filepaths st)) /\
  simplified_names st' = simplified_names st.
Proof.
  intros Hw. revert st. induction fuel as [|fuel IH]; intros st Hrun.
  - cbn in Hrun. destruct (batched_filepaths st); [|discriminate Hrun].
    injection Hrun as <-. by rewrite app_nil_r.
  - cbn [while_loop] in Hrun. destruct (batched_filepaths st) as [|b rest] eqn:Eq.
    + injection Hrun as <-. by rewrite app_nil_r.
    + apply IH in Hrun as [Hf Hn]. unfold turn in Hf, Hn. rewrite Hw in Hf, Hn.
      rewrite on_exception_spec in Hf, Hn. cbn in Hf, Hn.
      split; [|exact Hn]. rewrite Hf. cbn [List.map concat]. by rewrite <- app_assoc.
Qed.

Lemma make_batches_length (filepaths : list pystr) (batch_size : Z) (count : nat) :
  length (make_batches filepaths batch_size count) = count.
Proof. unfold make_batches. by rewrite length_map, length_seq. Qed.

Lemma make_batches_ids (filepaths : list pystr) (batch_size : Z) (count : nat) :
  List.map id (make_batches filepaths batch_size count) = seq 0 count.
Proof. unfold make_batches. rewrite map_map. cbn [id]. apply map_id. Qed.

Lemma chunks_concat {A} (l : list A) (n count : nat) :
  concat (List.map (fun i => take n (drop (i * n) l)) (seq 0 count)) = take (count * n) l.
Proof.
  induction count as [|c IH]; [reflexivity|].
  rewrite seq_S, map_app, concat_app, IH. cbn [List.map concat plus].
  rewrite app_nil_r, take_take_drop. f_equal. lia.
Qed.

(** The batches partition the input, in order. *)
Lemma make_batches_concat (filepaths : list pystr) (batch_size : Z) (count : nat) :
  0 < batch_size ->
  ceil_div (Z.of_nat (length filepaths)) batch_size = Some count ->
  concat (List.map filenames (make_batches filepaths batch_size count)) = filepaths.
Proof.
  intros Hpos Hc. unfold make_batches. rewrite map_map. cbn [filenames].
  rewrite chunks_concat. apply take_ge.
  unfold ceil_div in Hc.
  destruct (batch_size =? 0) eqn:E0; [lia|].
  destruct (batch_size <? 0) eqn:E1; [lia|].
  injection Hc as <-.
  set (n := Z.of_nat (length filepaths)).
  pose proof (Z.div_mod (n + batch_size - 1) batch_size ltac:(lia)) as Hdm.
  pose proof (Z.mod_pos_bound (n + batch_size - 1) batch_size Hpos) as Hmod.
  assert (Hq : 0 <= (n + batch_size - 1) / batch_size) by (apply Z.div_pos; lia).
  apply Nat2Z.inj_le. rewrite Nat2Z.inj_mul, !Z2Nat.id by lia. fold n. nia.
Qed.

(** A call with a batch size that is not zero: the loop gets one turn of
    fuel for each batch and empties the queue. *)
Lemma simplify_filenames_run (filepaths : list pystr) (batch_size : Z) (count : nat) :
  ceil_div (Z.of_nat (length filepaths)) batch_size = Some count ->
  exists st,
    simplify_filenames w filepaths batch_size = Returned st /\
    while_loop count w
      {| batched_filepaths := make_batches filepaths batch_size count;
         simplified_names := []; failed_instances := [];
         requests := 0; attempted := [] |} = Some st /\
    batched_filepaths st = [] /\
    attempted st = seq 0 count /\
    requests st = count.
Proof.
  intros Hc. unfold simplify_filenames. rewrite Hc. rewrite make_batches_length.
  set (st0 := {| batched_filepaths := make_batches filepaths batch_size count;
                 simplified_names := []; failed_instances := [];
                 requests := 0; attempted := [] |}).
  destruct (while_loop_enough count st0) as (st & Hrun & Hq & Ha & Hr).
  { cbn. by rewrite make_batches_length. }
  exists st. rewrite Hrun. split_and!; [done|done|exact Hq| |].
  - rewrite Ha. cbn. apply make_batches_ids.
  - rewrite Hr. cbn. apply make_batches_length.
Qed.

End Queue.

(** C9. The loop of [simplify_filenames] ends for every input list, every
    batch size and every sequence of answers of the service: with a batch
    size of zero the function raises before the loop; otherwise it returns
    with an empty queue after exactly one turn for each batch, which is
    within (number of batches) x (attempt bound 1). *)
Theorem simplify_filenames_terminates (w : Slim.world) (filepaths : list pystr)
    (batch_size : Z) :
  (batch_size = 0 /\
   Slim.simplify_filenames w filepaths batch_size = Slim.ZeroDivisionError) \/
  (exists count st,
     Slim.ceil_div (Z.of_nat (length filepaths)) batch_size = Some count /\
     Slim.simplify_filenames w filepaths batch_size = Slim.Returned st /\
     Slim.batched_filepaths st = [] /\
     Slim.requests st = length (Slim.attempted st) /\
     (length (Slim.attempted st) <= count * 1)%nat).
Proof.
  destruct (Slim.ceil_div (Z.of_nat (length filepaths)) batch_size) as [count|] eqn:Ec.
  - right. exists count.
    destruct (simplify_filenames_run w filepaths batch_size count Ec)
      as (st & Hret & _ & Hq & Ha & Hr).
    exists st. split_and!; [done|exact Hret|exact Hq| |].
    + rewrite Hr, Ha. by rewrite length_seq.
    + rewrite Ha, length_seq. lia.
  - left. unfold Slim.simplify_filenames. rewrite Ec.
    unfold Slim.ceil_div in Ec.
    destruct (batch_size =? 0) eqn:E0; [|destruct (batch_size <? 0); discriminate Ec].
    split; [lia|reflexivity].
Qed.

(** C1. A batch whose request fails is attempted once, not twice: when
    every request fails, each batch is attempted exactly once, in order,
    none is put back in the queue, and the files come out in the failure
    list exactly as they came in. *)
Theorem failing_batches_attempted_once (w : Slim.world) (filepaths : list pystr)
    (batch_size : Z) :
  0 < batch_size ->
  (forall n, Slim.service w n = Slim.Raises) ->
  exists count st,
    Slim.ceil_div (Z.of_nat (length filepaths)) batch_size = Some count /\
    Slim.simplify_filenames w filepaths batch_size = Slim.Returned st /\
    Slim.attempted st = seq 0 count /\
    Slim.requests st = count /\
    Slim.failed_instances st = filepaths /\
    Slim.simplified_names st = [].
Proof.
  intros Hpos Hw.
  destruct (Slim.ceil_div (Z.of_nat (length filepaths)) batch_size) as [count|] eqn:Ec.
  2: { unfold Slim.ceil_div in Ec. destruct (batch_size =? 0) eqn:E0; [lia|].
       destruct (batch_size <? 0); discriminate Ec. }
  destruct (simplify_filenames_run w filepaths batch_size count Ec)
    as (st & Hret & Hrun & Hq & Ha & Hr).
  exists count, st.
  destruct (while_loop_all_fail w _ _ st Hw Hrun) as [Hf Hn].
  split_and!; [reflexivity|exact Hret|exact Ha|exact Hr| |exact Hn].
  rewrite Hf. cbn. by apply make_batches_concat.
Qed.

(** The failing input of C1: two files in one batch, a service that never
    answers.  One request is sent, where two attempts were promised. *)
Lemma failing_batches_attempted_once_witness :
  let w := {| Slim.service := fun _ => Slim.Raises;
              Slim.os_refuses := fun _ => false;
              Slim.confirmation := str "y" |} in
  let filepaths := [str "/d/a.webloc"; str "/d/b.webloc"] in
  exists count st,
    Slim.ceil_div (Z.of_nat (length filepaths)) 5 = Some count /\
    Slim.simplify_filenames w filepaths 5 = Slim.Returned st /\
    Slim.attempted st = seq 0 count /\
    Slim.requests st = count /\
    Slim.failed_instances st = filepaths /\
    Slim.simplified_names st = [].
Proof.
  intros w filepaths.
  apply (failing_batches_attempted_once w filepaths 5); [lia | reflexivity].
Defined.

Example single_failing_batch :
  Slim.simplify_filenames
    {| Slim.service := fun _ => Slim.Raises; Slim.os_refuses := fun _ => false;
       Slim.confirmation := str "y" |}
    [str "/d/a.webloc"; str "/d/b.webloc"] 5
  = Slim.Returned
      {| Slim.batched_filepaths := []; Slim.simplified_names := [];
         Slim.failed_instances := [str "/d/a.webloc"; str "/d/b.webloc"];
         Slim.requests := 1; Slim.attempted := [0%nat] |}.
Proof. reflexivity. Qed.

(** ** Matching the answer of the service to the batch *)

Section Matching.

Import Slim.

Lemma dict_get_set_eq (k v : pystr) (d : dict) : dict_get k (dict_set k v d) = Some v.
Proof.
  induction d as [|[k' v'] d IH]; cbn; unfold eqb.
  - by rewrite bool_decide_eq_true_2.
  - case_bool_decide as E; cbn; unfold eqb.
    + by rewrite bool_decide_eq_true_2.
    + rewrite bool_decide_eq_false_2 by exact E. exact IH.
Qed.

Lemma dict_get_set_ne (k k' v : pystr) (d : dict) :
  k <> k' -> dict_get k' (dict_set k v d) = dict_get k' d.
Proof.
  intros Hne. induction d as [|[k0 v0] d IH]; cbn; unfold eqb.
  - rewrite bool_decide_eq_false_2; [reflexivity | congruence].
  - case_bool_decide as E; cbn; unfold eqb.
    + subst k0. rewrite bool_decide_eq_false_2; [reflexivity | congruence].
    + case_bool_decide; [reflexivity | exact IH].
Qed.

Lemma file_prefix_list_lookup (batch : list pystr) (i : nat) :
  file_prefix_list_of batch !! i =
  match batch !! i with
  | Some filepath => Some (filepath, snd (name_and_prefix filepath))
  | None => None
  end.
Proof.
  unfold file_prefix_list_of. revert i.
  induction batch as [|p batch IH]; intros [|i]; cbn; try reflexivity. apply IH.
Qed.

(** An answer that is not longer than what is left of the batch: entry [j]
    names the file at index [i + j], and the other files keep what the dict
    had for them. *)
Lemma update_names_short (batch : list pystr) (entries : list entry) :
  NoDup batch ->
  forall (i : nat) (names : dict),
  (i + length entries <= length batch)%nat ->
  exists names',
    update_names i entries (file_prefix_list_of batch) names = (names', false) /\
    (forall j e p, entries !! j = Some e -> batch !! (i + j)%nat = Some p ->
       dict_get p names' =
       Some (with_prefix (snd (name_and_prefix p)) (simplified_of e))) /\
    (forall k p, batch !! k = Some p -> (k < i \/ i + length entries <= k)%nat ->
       dict_get p names' = dict_get p names).
Proof.
  intros Hnd. induction entries as [|e entries IH]; intros i names Hlen.
  - exists names. cbn. split_and!; [done| |done].
    intros j e p Hj. by rewrite lookup_nil in Hj.
  - cbn [length] in Hlen. cbn [update_names]. rewrite file_prefix_list_lookup.
    destruct (batch !! i) as [p0|] eqn:Ep0.
    2: { apply lookup_ge_None in Ep0. lia. }
    destruct (IH (S i) (dict_set p0 (with_prefix (snd (name_and_prefix p0)) (simplified_of e))
                                 names)) as (names' & Hrun & Hset & Hkeep); [lia|].
    exists names'. split_and!; [exact Hrun| |].
    + intros [|j] e' p He' Hp.
      * cbn in He'. injection He' as <-. rewrite Nat.add_0_r, Ep0 in Hp.
        injection Hp as <-.
        rewrite (Hkeep i p0 Ep0) by lia. apply dict_get_set_eq.
      * cbn in He'. apply (Hset j e' p He'). rewrite <- Hp. f_equal. lia.
    + intros k p Hk Hrange. cbn [length] in Hrange. rewrite (Hkeep k p Hk) by lia.
      apply dict_get_set_ne. intros ->.
      assert (i = k) by exact (NoDup_lookup _ _ _ _ Hnd Ep0 Hk). lia.
Qed.


End Matching.





(** ** Dry runs *)

Section DryRun.

Import Slim.

Variable w : world.




End DryRun.




(** ** Deduplication in [change_webloc_names.py] *)

Section Dedup.

Import Change.

Variable w : world.


Lemma loop_cons (st : state) (filepath : pystr) (rest : list pystr) :
  loop w st (filepath :: rest) =
  (fst (loop w (fst (process w st filepath)) rest),
   snd (process w st filepath) :: snd (loop w (fst (process w st filepath)) rest)).
Proof.
  cbn [loop]. destruct (process w st filepath) as [st1 r]. cbn [fst snd].
  destruct (loop w st1 rest) as [st2 rs]. reflexivity.
Qed.



End Dedup.


(** ** Where a file is after its iteration *)

Section Renames.

Import Change.




End Renames.





Lemma final_rename_keeps_extension_witness :
  endswith (str "/d/       Link - T.webloc") (str ".webloc") = true /\
  endswith (str "/d/x.webloc") (snd (splitext (basename (str "/d/a.webloc")))) = true.
Proof.
  split.
  - apply (proj1 final_rename_keeps_extension
             {| Change.get_webpage_title := fun _ => Some (str "T");
                Change.os_refuses := fun _ => false |}
             (Change.initial (<[str "/d/a.webloc" := Fs.Webloc 0 (str "https://x.org/1")]> ∅))
             (str "/d/a.webloc") (str "/d/T") (str "/d/       Link - T.webloc") true).
    vm_compute. right. left. reflexivity.
  - apply (proj2 final_rename_keeps_extension
             {| Slim.service := fun _ => Slim.Raises; Slim.os_refuses := fun _ => false;
                Slim.confirmation := str "y" |}
             false [(str "/d/a.webloc", str "x")]
             (<[str "/d/a.webloc" := Fs.Webloc 0 (str "https://x.org/1")]> ∅)
             (str "/d/a.webloc") (str "/d/x.webloc") true).
    vm_compute. left. reflexivity.
Defined.

(** ** The examples of the specification, run on the model *)

Example canonicalize_youtube :
  Change.canonicalize (str "https://www.youtube.com/watch?v=abc&pp=xyz")
  = str "https://www.youtube.com/watch?v=abc".
Proof. reflexivity. Qed.

Example canonicalize_bilibili :
  Change.canonicalize (str "https://www.bilibili.com/video/BV1?spm_id_from=333&vd_source=9")
  = str "https://www.bilibili.com/video/BV1".
Proof. reflexivity. Qed.

Example canonicalize_other :
  Change.canonicalize (str "https://example.org/?a=1&pp=2") = str "https://example.org/?a=1&pp=2".
Proof. reflexivity. Qed.

Example step_3_github :
  Change.step_3 (str "https://GitHub.com/a/b") (str "a/b · some text") (str "/d/x.webloc")
  = str "/d/       Github - ab.webloc".
Proof. reflexivity. Qed.

Example splitext_examples :
  splitext (str "z.tar.webloc") = (str "z.tar", str ".webloc") /\
  splitext (str ".bashrc") = (str ".bashrc", []) /\
  dirname (str "/x/y/z.webloc") = str "/x/y" /\
  basename (str "/x/y/z.webloc") = str "z.webloc" /\
  join (str "/x/y") (str "z") = str "/x/y/z".
Proof. split_and!; reflexivity. Qed.

Example name_and_prefix_example :
  Slim.name_and_prefix (str "/d/       YouTube - Some title.webloc")
  = (str "Some title", str "       YouTube").
Proof. reflexivity. Qed.

(** * Further properties of the two scripts *)

(** ** Splitting and joining *)

Section SplitJoin.

Implicit Types s sep : pystr.

Lemma split_from_nonempty sep (k : nat) s : split_from sep k s <> [].
Proof.
  revert k. induction s as [|c s IH]; intros k; [done|].
  cbn [split_from]. destruct k as [|k]; [|apply IH].
  destruct (startswith (c :: s) sep); [done|].
  destruct (split_from sep 0 s); done.
Qed.

(** The characters of a separator that was matched are passed over. *)
Lemma split_from_skip sep (a : pystr) s :
  split_from sep (length a) (a ++ s) = split_from sep 0 s.
Proof. induction a as [|c a IH]; [reflexivity|]. cbn. exact IH. Qed.

Lemma join_with_cons_char sep (c : Z) (seg : pystr) (rest : list pystr) :
  join_with sep ((c :: seg) :: rest) = c :: join_with sep (seg :: rest).
Proof. destruct rest; reflexivity. Qed.

Lemma split_cons_no_match sep (c : Z) s :
  startswith (c :: s) sep = false ->
  exists seg rest, split sep s = seg :: rest /\ split sep (c :: s) = (c :: seg) :: rest.
Proof.
  intros H. unfold split. cbn [split_from]. rewrite H.
  destruct (split_from sep 0 s) as [|seg rest] eqn:E.
  - by apply split_from_nonempty in E.
  - by exists seg, rest.
Qed.

Lemma split_match sep s :
  sep <> [] -> split sep (sep ++ s) = [] :: split sep s.
Proof.
  intros Hsep. destruct sep as [|c sep']; [done|].
  unfold split. change ((c :: sep') ++ s) with (c :: (sep' ++ s)).
  cbn [split_from].
  change (c :: sep' ++ s) with ((c :: sep') ++ s). rewrite startswith_app.
  replace (length (c :: sep') - 1)%nat with (length sep') by (cbn; lia).
  by rewrite split_from_skip.
Qed.

(** [sep.join(s.split(sep)) == s] *)
Lemma join_split sep s : sep <> [] -> join_with sep (split sep s) = s.
Proof.
  intros Hsep. remember (length s) as n eqn:Hn. revert s Hn.
  induction n as [n IH] using lt_wf_ind. intros s Hn.
  destruct s as [|c s]; [reflexivity|].
  destruct (startswith (c :: s) sep) eqn:Hs.
  - apply startswith_spec in Hs as [rest Hrest]. rewrite Hrest.
    rewrite split_match by exact Hsep.
    assert (Hlen : (length rest < n)%nat).
    { subst n. rewrite Hrest, length_app. destruct sep; [done|]. cbn. lia. }
    pose proof (IH (length rest) Hlen rest eq_refl) as Hrec.
    destruct (split sep rest) as [|seg more] eqn:E;
      [by apply split_from_nonempty in E|].
    cbn [join_with app]. cbn [join_with] in Hrec. by rewrite Hrec.
  - destruct (split_cons_no_match sep c s Hs) as (seg & rest & E1 & E2).
    rewrite E2, join_with_cons_char, <- E1.
    f_equal. apply (IH (length s)); [subst n; cbn; lia | reflexivity].
Qed.

(** Every piece of a split is made of characters of the string. *)
Lemma split_from_chars sep (k : nat) s (seg : pystr) (c : Z) :
  In seg (split_from sep k s) -> In c seg -> In c s.
Proof.
  revert k seg. induction s as [|x s IH]; intros k seg Hseg Hc.
  - cbn in Hseg. destruct Hseg as [<-|[]]. destruct Hc.
  - cbn [split_from] in Hseg. destruct k as [|k].
    + destruct (startswith (x :: s) sep).
      * destruct Hseg as [<-|Hseg]; [destruct Hc|]. right. exact (IH _ _ Hseg Hc).
      * destruct (split_from sep 0 s) as [|seg0 rest] eqn:E.
        -- destruct Hseg as [<-|[]]. destruct Hc as [->|[]]. by left.
        -- destruct Hseg as [<-|Hseg].
           ++ destruct Hc as [->|Hc]; [by left|]. right.
              apply (IH 0%nat seg0); [rewrite E; by left | exact Hc].
           ++ right. apply (IH 0%nat seg); [rewrite E; by right | exact Hc].
    + right. exact (IH _ _ Hseg Hc).
Qed.

Lemma last_split_chars sep s (c : Z) : In c (last (split sep s)) -> In c s.
Proof.
  intros Hc. apply (split_from_chars sep 0 s (last (split sep s)) c); [|exact Hc].
  unfold last, split. destruct (exists_last (split_from_nonempty sep 0 s)) as (l & a & ->).
  rewrite last_last. apply in_app_iff. right. by left.
Qed.

Lemma first_split_chars sep s (c : Z) : In c (first (split sep s)) -> In c s.
Proof.
  intros Hc. destruct (first_split_prefix sep s) as [k Hk]. rewrite Hk.
  apply in_app_iff. by left.
Qed.

(** Replacing never brings in a character that is neither in the string nor
    in the replacement. *)
Lemma replace_from_chars (old new : pystr) (k : nat) s (c : Z) :
  In c (replace_from old new k s) -> In c s \/ In c new.
Proof.
  revert k. induction s as [|x s IH]; intros k Hc; [destruct Hc|].
  cbn [replace_from] in Hc. destruct k as [|k].
  - destruct (startswith (x :: s) old).
    + apply in_app_iff in Hc as [Hc|Hc]; [by right|].
      destruct (IH _ Hc) as [H|H]; [left; by right | by right].
    + destruct Hc as [->|Hc]; [left; by left|].
      destruct (IH _ Hc) as [H|H]; [left; by right | by right].
  - destruct (IH _ Hc) as [H|H]; [left; by right | by right].
Qed.

Lemma replace_chars (old new s : pystr) (c : Z) :
  In c (replace old new s) -> In c s \/ In c new.
Proof. apply replace_from_chars. Qed.

(** Replacing a character by a string without it removes it. *)
Lemma replace_char_removes (a : Z) (new s : pystr) :
  ~ In a new -> ~ In a (replace [a] new s).
Proof.
  intros Hnew. induction s as [|x s IH]; [intros []|].
  rewrite replace_char_cons. intros Hin. apply in_app_iff in Hin as [Hin|Hin]; [|by apply IH].
  destruct (a =? x) eqn:E; [by apply Hnew|].
  destruct Hin as [->|[]]. by rewrite Z.eqb_refl in E.
Qed.

End SplitJoin.

(** ** More on the deduplication key *)

Section KeyFacts.

Import Change.



End KeyFacts.

(** X1. The deduplication key is always a prefix of the URL read from the
    file, and a URL that has neither the YouTube nor the Bilibili shape is
    its own key. *)
Theorem canonicalize_prefix_of_url (u : pystr) :
  Change.canonicalize u `prefix_of` u /\
  (startswith u (str "https://www.youtube.com/watch?") = false ->
   startswith u (str "https://www.bilibili.com/video/") = false ->
   Change.canonicalize u = u).
Proof.
  split.
  - rewrite canonicalize_unfold. cbv zeta.
    set (u1 := if startswith u _ then _ else u).
    assert (H1 : u1 `prefix_of` u).
    { unfold u1. destruct (startswith u _); [apply first_split_prefix | done]. }
    destruct (startswith u1 _); [|exact H1].
    etrans; [apply first_split_prefix|]. etrans; [apply first_split_prefix|].
    etrans; [apply first_split_prefix|]. exact H1.
  - intros Hy Hb. apply canonicalize_fixed; congruence.
Qed.

Lemma canonicalize_prefix_of_url_witness :
  Change.canonicalize (str "https://example.org/?a=1&pp=2") = str "https://example.org/?a=1&pp=2".
Proof.
  apply (proj2 (canonicalize_prefix_of_url (str "https://example.org/?a=1&pp=2")));
    vm_compute; reflexivity.
Defined.



(** ** Paths: the last separator, the directory and the file name *)

Section Paths.

Implicit Types p d n a b : pystr.

Lemma rfind_opt_spec (c : Z) p :
  match rfind_opt c p with
  | None => ~ In c p
  | Some i => exists a b, p = a ++ c :: b /\ length a = i /\ ~ In c b
  end.
Proof.
  induction p as [|x p IH]; cbn; [tauto|].
  destruct (rfind_opt c p) as [i|].
  - destruct IH as (a & b & -> & <- & Hb). by exists (x :: a), b.
  - destruct (x =? c) eqn:E.
    + apply Z.eqb_eq in E as ->. by exists [], p.
    + apply Z.eqb_neq in E. intros [H|H]; [done | by apply IH].
Qed.

Lemma rfind_absent (c : Z) p : ~ In c p -> rfind c p = -1.
Proof.
  intros H. unfold rfind. pose proof (rfind_opt_spec c p) as Hs.
  destruct (rfind_opt c p) as [i|]; [|reflexivity].
  destruct Hs as (a & b & -> & _ & _). exfalso. apply H, in_app_iff. right. by left.
Qed.

Lemma rfind_opt_last (c : Z) a b : ~ In c b -> rfind_opt c (a ++ c :: b) = Some (length a).
Proof.
  intros Hb. induction a as [|x a IH]; cbn.
  - pose proof (rfind_opt_spec c b) as Hs. destruct (rfind_opt c b) as [i|].
    + destruct Hs as (a' & b' & -> & _ & _). exfalso. apply Hb, in_app_iff. right. by left.
    + by rewrite Z.eqb_refl.
  - by rewrite IH.
Qed.

Lemma rfind_last (c : Z) a b : ~ In c b -> rfind c (a ++ c :: b) = Z.of_nat (length a).
Proof. intros Hb. unfold rfind. by rewrite rfind_opt_last. Qed.

(** A path is a file name, or a head that ends with the last separator
    followed by a file name. *)
Lemma path_cases p :
  ~ In slash p \/ exists a b, p = a ++ slash :: b /\ ~ In slash b.
Proof.
  pose proof (rfind_opt_spec slash p) as Hs. destruct (rfind_opt slash p) as [i|].
  - right. destruct Hs as (a & b & -> & _ & Hb). by exists a, b.
  - by left.
Qed.

Lemma basename_plain p : ~ In slash p -> basename p = p.
Proof. intros H. unfold basename. rewrite rfind_absent by exact H. reflexivity. Qed.

Lemma dirname_plain p : ~ In slash p -> dirname p = [].
Proof. intros H. unfold dirname. rewrite rfind_absent by exact H. reflexivity. Qed.

Lemma basename_after a b : ~ In slash b -> basename (a ++ slash :: b) = b.
Proof.
  intros H. unfold basename, slice_from. rewrite rfind_last by exact H.
  destruct (Z.of_nat (length a) + 1 <? 0) eqn:E; [apply Z.ltb_lt in E; lia|].
  replace (Z.to_nat (Z.of_nat (length a) + 1)) with (length (a ++ [slash]))
    by (rewrite length_app; cbn; lia).
  change (a ++ slash :: b) with (a ++ [slash] ++ b). rewrite app_assoc.
  by rewrite drop_app_length.
Qed.

Lemma head_after a b :
  ~ In slash b -> slice_to (rfind slash (a ++ slash :: b) + 1) (a ++ slash :: b) = a ++ [slash].
Proof.
  intros H. unfold slice_to. rewrite rfind_last by exact H.
  destruct (Z.of_nat (length a) + 1 <? 0) eqn:E; [apply Z.ltb_lt in E; lia|].
  replace (Z.to_nat (Z.of_nat (length a) + 1)) with (length (a ++ [slash]))
    by (rewrite length_app; cbn; lia).
  change (a ++ slash :: b) with (a ++ [slash] ++ b). rewrite app_assoc.
  by rewrite take_app_length.
Qed.

(** The file name of a path has no separator. *)
Lemma basename_no_slash p : ~ In slash (basename p).
Proof.
  destruct (path_cases p) as [H | (a & b & -> & H)].
  - by rewrite basename_plain.
  - by rewrite basename_after.
Qed.

Lemma lstrip_shape (c : Z) (s : pystr) :
  (lstrip c s = [] /\ forallb (Z.eqb c) s = true) \/
  (exists x l, lstrip c s = x :: l /\ x <> c).
Proof.
  induction s as [|x s IH]; cbn; [by left|].
  destruct (x =? c) eqn:E.
  - apply Z.eqb_eq in E as ->. rewrite Z.eqb_refl. exact IH.
  - right. exists x, s. split; [reflexivity|]. by apply Z.eqb_neq.
Qed.

Lemma forallb_reverse {A} (f : A -> bool) (l : list A) :
  forallb f (reverse l) = forallb f l.
Proof.
  induction l as [|x l IH]; [reflexivity|].
  rewrite reverse_cons, forallb_app, IH. cbn. rewrite andb_true_r. apply andb_comm.
Qed.

(** A directory, as [dirname] gives it: only separators, or a last
    character that is not one. *)
Lemma dirname_shape p :
  forallb (Z.eqb slash) (dirname p) = true \/
  exists d' x, dirname p = d' ++ [x] /\ x <> slash.
Proof.
  unfold dirname. set (head := slice_to _ p).
  destruct (forallb (Z.eqb slash) head) eqn:Ea.
  - left. rewrite andb_false_r. exact Ea.
  - destruct (eqb head []) eqn:Ee.
    + apply bool_decide_eq_true in Ee. rewrite Ee in Ea. discriminate Ea.
    + cbn [negb andb]. unfold rstrip.
      destruct (lstrip_shape slash (reverse head)) as [[_ Hall] | (x & l & Hl & Hx)].
      * rewrite forallb_reverse, Ea in Hall. discriminate Hall.
      * right. exists (reverse l), x. rewrite Hl, reverse_cons. done.
Qed.

Lemma endswith_last d' (x c : Z) : endswith (d' ++ [x]) [c] = (c =? x).
Proof.
  unfold endswith. rewrite reverse_app. change (reverse [x]) with [x].
  change (reverse [c]) with [c]. cbn [app startswith]. by rewrite andb_true_r.
Qed.

Lemma all_slashes_last d :
  d <> [] -> forallb (Z.eqb slash) d = true -> exists a, d = a ++ [slash].
Proof.
  intros Hne Hall. destruct (exists_last Hne) as (a & x & ->).
  rewrite forallb_app in Hall. cbn [forallb] in Hall.
  apply andb_true_iff in Hall as [_ Hx]. rewrite andb_true_r in Hx.
  apply Z.eqb_eq in Hx as <-. by exists a.
Qed.

Lemma no_slash_head n : ~ In slash n -> startswith n [slash] = false.
Proof.
  intros H. destruct n as [|x n]; [reflexivity|]. cbn [startswith].
  destruct (slash =? x) eqn:E; [|reflexivity].
  apply Z.eqb_eq in E. exfalso. apply H. by left.
Qed.

(** Joining a directory and a file name, and taking the result apart. *)
Lemma join_dirname_basename p n :
  ~ In slash n ->
  basename (join (dirname p) n) = n /\ dirname (join (dirname p) n) = dirname p.
Proof.
  intros Hn. unfold join. rewrite (no_slash_head n Hn).
  pose proof (dirname_shape p) as Hshape.
  remember (dirname p) as d eqn:Ed. clear Ed.
  destruct Hshape as [Hall | (d' & x & -> & Hx)].
  - destruct (decide (d = [])) as [->|E].
    + cbn. split; [by apply basename_plain | by apply dirname_plain].
    + destruct (all_slashes_last _ E Hall) as [a ->].
      rewrite endswith_last, Z.eqb_refl, orb_true_r.
      rewrite <- app_assoc. cbn [app].
      split; [by apply basename_after|].
      unfold dirname. rewrite head_after by exact Hn. rewrite Hall.
      by rewrite andb_false_r.
  - assert (Hends : eqb (d' ++ [x]) [] || endswith (d' ++ [x]) [slash] = false).
    { rewrite endswith_last. apply orb_false_iff. split.
      - apply bool_decide_eq_false. by destruct d'.
      - by apply Z.eqb_neq. }
    rewrite Hends. split; [by apply basename_after|].
    unfold dirname. rewrite head_after by exact Hn.
    assert (Hnall : forallb (Z.eqb slash) ((d' ++ [x]) ++ [slash]) = false).
    { rewrite !forallb_app. cbn [forallb].
      destruct (slash =? x) eqn:E; [apply Z.eqb_eq in E; congruence|].
      cbn [andb]. by rewrite andb_false_r. }
    rewrite Hnall.
    assert (Hne : eqb ((d' ++ [x]) ++ [slash]) [] = false).
    { apply bool_decide_eq_false. by destruct d'. }
    rewrite Hne. cbn [negb andb]. unfold rstrip.
    rewrite reverse_app. change (reverse [slash]) with [slash].
    cbn [app lstrip]. rewrite Z.eqb_refl.
    rewrite reverse_app. change (reverse [x]) with [x]. cbn [app lstrip].
    destruct (x =? slash) eqn:E; [apply Z.eqb_eq in E; congruence|].
    by rewrite reverse_cons, reverse_involutive.
Qed.

(** Adding to a file name after the join is adding before it. *)
Lemma join_app_name d n (e : pystr) :
  startswith n [slash] = false -> startswith (n ++ e) [slash] = false ->
  join d n ++ e = join d (n ++ e).
Proof.
  intros H1 H2. unfold join. rewrite H1, H2.
  destruct (eqb d [] || endswith d [slash]).
  - by rewrite app_assoc.
  - by rewrite <- app_assoc.
Qed.

End Paths.

(** ** The names and paths of steps 2 and 3 *)

Section StepNames.

Import Change.

Lemma take_chars (k : nat) (s : pystr) (c : Z) : In c (take k s) -> In c s.
Proof.
  revert k. induction s as [|x s IH]; intros [|k] H; cbn in H; try (by destruct H).
  destruct H as [->|H]; [by left | right; by apply (IH k)].
Qed.

Lemma slice_to_chars (m : Z) (s : pystr) (c : Z) : In c (slice_to m s) -> In c s.
Proof. unfold slice_to. destruct (m <? 0); apply take_chars. Qed.

Lemma truncate_chars (m : Z) (s : pystr) (c : Z) : In c (truncate m s) -> In c s.
Proof. unfold truncate. destruct (m <? len s); [apply slice_to_chars | done]. Qed.

Lemma kept_all_chars (s : pystr) (c : Z) : forallb kept s = true -> In c s -> kept c = true.
Proof.
  induction s as [|x s IH]; [intros _ []|].
  cbn [forallb]. rewrite andb_true_iff. intros [Hx Hs] [->|H]; [exact Hx | by apply IH].
Qed.

Lemma strip_chars_no_slash (s : pystr) : ~ In slash (strip_chars s).
Proof.
  intros H. pose proof (kept_all_chars _ _ (strip_chars_kept s) H) as Hk.
  vm_compute in Hk. discriminate Hk.
Qed.

(** The title of step 2 has no separator, colon, question or exclamation
    mark left. *)
Lemma clean_title_chars (title : pystr) (c : Z) :
  In c [47; 58; 63; 33] -> ~ In c (clean_title title).
Proof.
  intros Hc Hin. unfold clean_title in Hin.
  assert (Hnew : forall new, In new [str "_"; str "："; str " "; []] -> ~ In c new).
  { intros new Hnew Hcn.
    destruct Hc as [<-|[<-|[<-|[<-|[]]]]];
      repeat (destruct Hnew as [<-|Hnew]; [vm_compute in Hcn; intuition discriminate|]);
      destruct Hnew. }
  assert (Hstep : forall old new s, In new [str "_"; str "："; str " "; []] ->
                    In c (replace old new s) -> In c s).
  { intros old new s Hn H. apply replace_chars in H as [H|H]; [exact H|].
    exfalso. exact (Hnew new Hn H). }
  apply Hstep in Hin; [|cbn; tauto]. apply Hstep in Hin; [|cbn; tauto].
  destruct Hc as [<-|[<-|[<-|[<-|[]]]]].
  - (* '/' goes at the first replacement *)
    do 5 (apply Hstep in Hin; [|cbn; tauto]).
    apply Hstep in Hin; [|cbn; tauto].
    revert Hin. apply (replace_char_removes 47 (str "_")). vm_compute. intuition discriminate.
  - (* ':' at the second *)
    do 5 (apply Hstep in Hin; [|cbn; tauto]).
    revert Hin. apply (replace_char_removes 58 (str "：")). vm_compute. intuition discriminate.
  - (* '?' at the sixth *)
    apply Hstep in Hin; [|cbn; tauto].
    revert Hin. apply (replace_char_removes 63 []). intros [].
  - (* '!' at the seventh *)
    revert Hin. apply (replace_char_removes 33 []). intros [].
Qed.

Lemma step_2_name_no_slash (filepath title : pystr) : ~ In slash (step_2_name filepath title).
Proof.
  intros H. unfold step_2_name in H. apply truncate_chars in H.
  revert H. apply clean_title_chars. by left.
Qed.

(** Every suffix cleaner only takes characters away. *)
Lemma cleaners_take_away :
  Forall (fun nr : string * rule =>
            forall n c, In c (suffix_cleaner (snd nr) n) -> In c n) PLATFORM_RULES.
Proof.
  unfold PLATFORM_RULES.
  repeat (apply Forall_cons; split;
          [cbn [snd suffix_cleaner]; intros n c H;
           repeat first [ apply first_split_chars in H
                        | apply replace_chars in H as [H|[]]
                        | apply slice_to_chars in H ];
           exact H |]).
  apply Forall_nil_2.
Qed.

Lemma prefixes_no_slash :
  Forall (fun nr : string * rule => ~ In slash (prefix (snd nr))) PLATFORM_RULES.
Proof.
  unfold PLATFORM_RULES.
  repeat (apply Forall_cons; split;
          [cbn [snd prefix]; intros H; vm_compute in H; intuition discriminate |]).
  apply Forall_nil_2.
Qed.

Lemma apply_rules_no_slash_gen (rules : list (string * rule)) (url n2 n3 : pystr) :
  Forall (fun nr : string * rule =>
            forall n c, In c (suffix_cleaner (snd nr) n) -> In c n) rules ->
  Forall (fun nr : string * rule => ~ In slash (prefix (snd nr))) rules ->
  ~ In slash n2 -> ~ In slash n3 ->
  ~ In slash (apply_rules rules url n2 n3).
Proof.
  intros Hclean Hpre H2 H3. induction rules as [|[name r] rules IH]; cbn [apply_rules].
  - intros H. apply in_app_iff in H as [H|H].
    + vm_compute in H. intuition discriminate.
    + by apply last_split_chars in H.
  - apply Forall_cons in Hclean as [Hc Hclean]. apply Forall_cons in Hpre as [Hp Hpre].
    cbn [snd] in Hc, Hp.
    destruct (detect r url); [|by apply IH].
    intros H. apply Hc in H.
    destruct (negb (startswith n2 (prefix r))); [|done].
    apply in_app_iff in H as [H|H]; [done|]. by apply last_split_chars in H.
Qed.

Lemma apply_rules_no_slash (url n2 n3 : pystr) :
  ~ In slash n2 -> ~ In slash n3 -> ~ In slash (apply_rules PLATFORM_RULES url n2 n3).
Proof.
  apply apply_rules_no_slash_gen; [apply cleaners_take_away | apply prefixes_no_slash].
Qed.

Lemma length_truncate_le (m : Z) (s : pystr) : (length (truncate m s) <= length s)%nat.
Proof.
  unfold truncate, slice_to. destruct (m <? len s); [|done].
  destruct (m <? 0); rewrite length_take; lia.
Qed.

(** The final path is the directory of the step-2 path joined with a name
    without separator: the truncated step-3 name, with ".webloc" added
    unless it ends the path already. *)
Lemma step_3_shape (url n2 p2 : pystr) :
  ~ In slash n2 ->
  exists name final,
    name = truncate (max_length_for (len webloc) (len (dirname p2)))
                    (apply_rules PLATFORM_RULES url n2 (strip_chars n2)) /\
    (final = name \/ final = name ++ webloc) /\
    ~ In slash final /\
    step_3 url n2 p2 = join (dirname p2) final.
Proof.
  intros H2. unfold step_3. cbv zeta.
  set (name := truncate _ (apply_rules _ _ _ _)).
  assert (Hname : ~ In slash name).
  { intros H. apply truncate_chars in H. revert H.
    apply apply_rules_no_slash; [exact H2 | apply strip_chars_no_slash]. }
  exists name. destruct (endswith (join (dirname p2) name) webloc); cbn [negb].
  - exists name. split; [reflexivity|]. split; [by left|]. done.
  - exists (name ++ webloc). split; [reflexivity|]. split; [by right|].
    assert (Hfinal : ~ In slash (name ++ webloc)).
    { intros H. apply in_app_iff in H as [H|H]; [done|].
      vm_compute in H. intuition discriminate. }
    split; [exact Hfinal|].
    apply join_app_name; by apply no_slash_head.
Qed.

(** The calls of one iteration: none, the removal of a duplicate, the final
    rename alone, or the title rename followed by the final rename of the
    title path. *)
Lemma process_calls (w : world) (st : state) (filepath : pystr) :
  let r := snd (process w st filepath) in
  r_calls r = [] \/
  (exists ok, r_calls r = [CallRemove filepath ok]) \/
  (exists key ok,
      r_calls r = [CallFinalRename filepath (step_3 key (basename filepath) filepath) ok]) \/
  (exists key title ok2 ok,
      r_calls r = [CallTitleRename filepath (step_2_path filepath title) ok2;
                   CallFinalRename (step_2_path filepath title)
                     (step_3 key (step_2_name filepath title) (step_2_path filepath title))
                     ok]).
Proof.
  unfold process.
  destruct (Fs.parse_webloc (fs st) filepath) as [[|c url]|]; cbn; [by left| |by left].
  destruct (url_map st !! canonicalize (c :: url)).
  - right; left. destruct (Fs.remove _ _ _); cbn; eauto.
  - unfold step_2.
    destruct (get_webpage_title w _) as [[|t title]|].
    + right; right; left. destruct (Fs.rename _ _ _ _); cbn; eauto.
    + right; right; right.
      destruct (Fs.rename _ filepath _ _); destruct (Fs.rename _ (step_2_path _ _) _ _);
        cbn; eauto 6.
    + right; right; left. destruct (Fs.rename _ _ _ _); cbn; eauto.
Qed.

End StepNames.

(** X3. Whatever the URL, the title and the answers of the system, the
    renames of [change_webloc_names.py] keep a file in its directory: the
    title rename and the final rename of a file go from and to paths whose
    directory is the directory of the file, and only the file itself is ever
    removed. *)
Theorem renames_stay_in_directory (w : Change.world) (st : Change.state)
    (filepath : pystr) (call : Change.fs_call) :
  In call (Change.r_calls (snd (Change.process w st filepath))) ->
  match call with
  | Change.CallRemove path _ => path = filepath
  | Change.CallTitleRename src dst _ =>
      src = filepath /\ dirname dst = dirname filepath
  | Change.CallFinalRename src dst _ =>
      dirname src = dirname filepath /\ dirname dst = dirname filepath
  end.
Proof.
  intros Hin.
  assert (H2 : forall title,
             dirname (Change.step_2_path filepath title) = dirname filepath).
  { intros title. unfold Change.step_2_path.
    exact (proj2 (join_dirname_basename filepath _ (step_2_name_no_slash filepath title))). }
  assert (H3 : forall key n2 p2, ~ In slash n2 ->
             dirname (Change.step_3 key n2 p2) = dirname p2).
  { intros key n2 p2 Hn2.
    destruct (step_3_shape key n2 p2 Hn2) as (name & final & _ & _ & Hf & ->).
    exact (proj2 (join_dirname_basename p2 final Hf)). }
  destruct (process_calls w st filepath)
    as [E | [(ok & E) | [(key & ok & E) | (key & title & ok2 & ok & E)]]];
    cbv zeta in E; rewrite E in Hin.
  - destruct Hin.
  - destruct Hin as [<-|[]]. reflexivity.
  - destruct Hin as [<-|[]]. split; [reflexivity|].
    apply H3, basename_no_slash.
  - destruct Hin as [<-|[<-|[]]].
    + split; [reflexivity | apply H2].
    + split; [apply H2|]. rewrite H3; [apply H2 | apply step_2_name_no_slash].
Qed.

Lemma renames_stay_in_directory_witness :
  dirname (str "/d/       Link - T.webloc") = dirname (str "/d/a.webloc").
Proof.
  refine (proj2 (renames_stay_in_directory
            {| Change.get_webpage_title := fun _ => Some (str "T");
               Change.os_refuses := fun _ => false |}
            (Change.initial (<[str "/d/a.webloc" := Fs.Webloc 0 (str "https://x.org/1")]> ∅))
            (str "/d/a.webloc")
            (Change.CallFinalRename (str "/d/T") (str "/d/       Link - T.webloc") true) _)).
  vm_compute. right. left. reflexivity.
Defined.

(** X4. When the directory of the file has at most 248 characters, the name
    of the destination of the final rename, extension included, and the
    directory together have at most 255 characters. *)
Theorem final_name_fits (w : Change.world) (st : Change.state)
    (filepath src dst : pystr) (ok : bool) :
  In (Change.CallFinalRename src dst ok)
     (Change.r_calls (snd (Change.process w st filepath))) ->
  len (dirname filepath) <= 248 ->
  len (basename dst) + len (dirname filepath) <= 255.
Proof.
  intros Hin Hdir.
  assert (H2 : forall title,
             dirname (Change.step_2_path filepath title) = dirname filepath).
  { intros title. unfold Change.step_2_path.
    exact (proj2 (join_dirname_basename filepath _ (step_2_name_no_slash filepath title))). }
  assert (H3 : forall key n2 p2, ~ In slash n2 -> dirname p2 = dirname filepath ->
             len (basename (Change.step_3 key n2 p2)) + len (dirname filepath) <= 255).
  { intros key n2 p2 Hn2 Hd.
    destruct (step_3_shape key n2 p2 Hn2) as (name & final & Hname & Hfinal & Hf & ->).
    rewrite (proj1 (join_dirname_basename p2 final Hf)).
    assert (Hlen : len name <= 248 - len (dirname filepath)).
    { rewrite Hname, Hd. apply (truncate_within (Change.max_length_for 7 _)).
      unfold Change.max_length_for. lia. }
    destruct Hfinal as [-> | ->]; [lia|].
    unfold len in *. rewrite length_app. change (length Change.webloc) with 7%nat. lia. }
  destruct (process_calls w st filepath)
    as [E | [(o & E) | [(key & o & E) | (key & title & ok2 & o & E)]]];
    cbv zeta in E; rewrite E in Hin.
  - destruct Hin.
  - destruct Hin as [H|[]]. discriminate H.
  - destruct Hin as [H|[]]. injection H as _ <- _.
    apply H3; [apply basename_no_slash | reflexivity].
  - destruct Hin as [H|[H|[]]]; [discriminate H|]. injection H as _ <- _.
    apply H3; [apply step_2_name_no_slash | apply H2].
Qed.

Lemma final_name_fits_witness :
  len (basename (str "/d/       Link - T.webloc")) + len (dirname (str "/d/a.webloc")) <= 255.
Proof.
  apply (final_name_fits
           {| Change.get_webpage_title := fun _ => Some (str "T");
              Change.os_refuses := fun _ => false |}
           (Change.initial (<[str "/d/a.webloc" := Fs.Webloc 0 (str "https://x.org/1")]> ∅))
           (str "/d/a.webloc") (str "/d/T") (str "/d/       Link - T.webloc") true).
  - vm_compute. right. left. reflexivity.
  - vm_compute. discriminate.
Defined.

(** X5. After lines 204-205 a name has no question mark, exclamation mark,
    slash, full-width space or character of [EMOJI_PATTERN] left and is not
    longer than before; a name without any of these is left as it is. *)
Theorem strip_chars_result (s : pystr) :
  (forall c, In c (Change.strip_chars s) ->
     c <> 63 /\ c <> 33 /\ c <> 47 /\ c <> 12288 /\ Change.is_emoji c = false) /\
  (length (Change.strip_chars s) <= length s)%nat /\
  (forallb Change.kept s = true -> Change.strip_chars s = s).
Proof.
  split_and!.
  - intros c Hc. pose proof (kept_all_chars _ _ (strip_chars_kept s) Hc) as Hk.
    unfold Change.kept in Hk. rewrite !andb_true_iff, !negb_true_iff in Hk.
    destruct Hk as ((((H1 & H2) & H3) & H4) & H5).
    apply Z.eqb_neq in H1, H2, H3, H4. done.
  - induction s as [|c s IH]; [done|]. rewrite strip_chars_cons, length_app.
    destruct (Change.kept c); [cbn; lia|]. destruct (c =? 12288); cbn; lia.
  - apply strip_chars_fixed.
Qed.

Lemma strip_chars_result_witness :
  Change.strip_chars (str "plain name 1") = str "plain name 1".
Proof.
  apply (proj2 (proj2 (strip_chars_result (str "plain name 1")))).
  vm_compute. reflexivity.
Defined.

(** X6. With room for a name, that is when the reserved suffix and the
    directory path take at most 255 characters, the sanitizer of lines
    204-205 and 219-221 is idempotent and its result fits the budget. *)
Theorem sanitize_with_room (x : pystr) (r d : Z) :
  r + d <= 255 ->
  Change.sanitize (Change.sanitize x r d) r d = Change.sanitize x r d /\
  len (Change.sanitize x r d) + r + d <= 255.
Proof.
  intros H. split; [by apply sanitize_idempotent_within_budget
                   | by apply sanitize_within_budget].
Qed.

Lemma sanitize_with_room_witness :
  Change.sanitize (Change.sanitize (str "a?b/c!") 7 246) 7 246
    = Change.sanitize (str "a?b/c!") 7 246 /\
  len (Change.sanitize (str "a?b/c!") 7 246) + 7 + 246 <= 255.
Proof. apply (sanitize_with_room (str "a?b/c!") 7 246). lia. Defined.

(** ** The state after an iteration of [change_webloc_names.py] *)

Section Iteration.

Import Change.

Variable w : world.

Lemma rename_frame (refused : bool) (src dst q : pystr) (fs0 fs1 : Fs.t) :
  Fs.rename refused src dst fs0 = Some fs1 -> q <> src -> q <> dst -> fs1 !! q = fs0 !! q.
Proof.
  unfold Fs.rename. destruct refused; [done|].
  destruct (fs0 !! src); [|done]. intros [= <-] Hs Hd.
  rewrite lookup_insert_ne by done. by rewrite lookup_delete_ne.
Qed.

Lemma remove_frame (refused : bool) (path q : pystr) (fs0 fs1 : Fs.t) :
  Fs.remove refused path fs0 = Some fs1 -> q <> path -> fs1 !! q = fs0 !! q.
Proof.
  unfold Fs.remove. destruct refused; [done|].
  destruct (fs0 !! path); [|done]. intros [= <-] Hp. by rewrite lookup_delete_ne.
Qed.

(** One iteration leaves alone every path that its calls do not name. *)
Lemma process_frame (st : state) (filepath q : pystr) :
  (forall call, In call (r_calls (snd (process w st filepath))) -> ~ In q (call_paths call)) ->
  fs (fst (process w st filepath)) !! q = fs st !! q.
Proof.
  unfold process.
  destruct (Fs.parse_webloc (fs st) filepath) as [[|c url]|]; cbn; [done| |done].
  destruct (url_map st !! canonicalize (c :: url)).
  - destruct (Fs.remove _ _ _) as [fs1|] eqn:E; cbn; [|done].
    intros H. apply (remove_frame _ _ _ _ _ E). intros ->.
    apply (H (CallRemove filepath true)); by left.
  - unfold step_2. destruct (get_webpage_title w _) as [[|t title]|].
    + destruct (Fs.rename _ _ _ _) as [fs1|] eqn:E; cbn; [|done].
      intros H. specialize (H _ (or_introl eq_refl)). cbn in H.
      apply (rename_frame _ _ _ _ _ _ E); intuition congruence.
    + destruct (Fs.rename _ filepath _ _) as [fs1|] eqn:E1;
        destruct (Fs.rename _ (step_2_path _ _) _ _) as [fs2|] eqn:E2; cbn; intros H;
        pose proof (H _ (or_introl eq_refl)) as Ha;
        pose proof (H _ (or_intror (or_introl eq_refl))) as Hb; cbn in Ha, Hb.
      * rewrite (rename_frame _ _ _ _ _ _ E2) by intuition congruence.
        apply (rename_frame _ _ _ _ _ _ E1); intuition congruence.
      * apply (rename_frame _ _ _ _ _ _ E1); intuition congruence.
      * apply (rename_frame _ _ _ _ _ _ E2); intuition congruence.
      * reflexivity.
    + destruct (Fs.rename _ _ _ _) as [fs1|] eqn:E; cbn; [|done].
      intros H. specialize (H _ (or_introl eq_refl)). cbn in H.
      apply (rename_frame _ _ _ _ _ _ E); intuition congruence.
Qed.

Lemma loop_frame (files : list pystr) (st : state) (q : pystr) :
  (forall r call,
      In r (snd (loop w st files)) -> In call (r_calls r) -> ~ In q (call_paths call)) ->
  fs (fst (loop w st files)) !! q = fs st !! q.
Proof.
  revert st. induction files as [|f files IH]; intros st H; [reflexivity|].
  rewrite loop_cons in H |- *. cbn [fst snd] in H |- *.
  rewrite IH.
  - apply process_frame. intros call Hc. apply (H _ call (or_introl eq_refl) Hc).
  - intros r call Hr Hc. apply (H r call); [by right | exact Hc].
Qed.

End Iteration.

(** X7. A run of [change_webloc_names.py] touches only the paths that its
    filesystem calls name: a path that is neither removed nor the source or
    destination of a rename holds after the run what it held before. *)
Theorem run_leaves_other_paths (w : Change.world) (fs0 : Fs.t) (walk : list pystr)
    (q : pystr) :
  (forall r call,
      In r (snd (Change.main w fs0 walk)) -> In call (Change.r_calls r) ->
      ~ In q (Change.call_paths call)) ->
  Change.fs (fst (Change.main w fs0 walk)) !! q = fs0 !! q.
Proof.
  intros H. unfold Change.main in *.
  exact (loop_frame w _ (Change.initial fs0) q H).
Qed.

Lemma run_leaves_other_paths_witness :
  let w := {| Change.get_webpage_title := fun _ => Some (str "T");
              Change.os_refuses := fun _ => false |} in
  let fs0 : Fs.t := <[str "/d/a.webloc" := Fs.Webloc 0 (str "https://x.org/1")]>
                    (<[str "/d/notes.txt" := Fs.Script []]> ∅) in
  Change.fs (fst (Change.main w fs0 [str "/d/a.webloc"])) !! str "/d/notes.txt"
  = Some (Fs.Script []).
Proof.
  intros w fs0.
  rewrite (run_leaves_other_paths w fs0 [str "/d/a.webloc"] (str "/d/notes.txt")).
  - vm_compute. reflexivity.
  - intros r call Hr Hc.
    vm_compute in Hr. destruct Hr as [<-|[]].
    vm_compute in Hc. destruct Hc as [<-|[<-|[]]];
      vm_compute; intuition discriminate.
Defined.

(** X8. The bookkeeping of one iteration: the file is added to
    [failed_instances] exactly when the last filesystem call of the
    iteration fails, so a refused title rename alone is never reported;
    [total_count] goes up by one exactly when the file had a URL; and one
    tick of the clock passes for each call. *)
Theorem iteration_bookkeeping (w : Change.world) (st : Change.state) (filepath : pystr) :
  let st' := fst (Change.process w st filepath) in
  let r := snd (Change.process w st filepath) in
  Change.failed_instances st' =
    Change.failed_instances st ++
    (if Change.call_ok (List.last (Change.r_calls r) (Change.CallRemove filepath true))
     then [] else [filepath]) /\
  Change.total_count st' =
    (Change.total_count st + match Change.r_key r with Some _ => 1 | None => 0 end)%nat /\
  Change.clock st' = (Change.clock st + length (Change.r_calls r))%nat.
Proof.
  unfold Change.process.
  destruct (Fs.parse_webloc (Change.fs st) filepath) as [[|c url]|]; cbn;
    [rewrite app_nil_r; split_and!; [done|lia|lia] | |
     rewrite app_nil_r; split_and!; [done|lia|lia]].
  destruct (Change.url_map st !! Change.canonicalize (c :: url)).
  - destruct (Fs.remove _ _ _); cbn; rewrite ?app_nil_r; split_and!; (done || lia).
  - unfold Change.step_2.
    destruct (Change.get_webpage_title w _) as [[|t title]|].
    + destruct (Fs.rename _ _ _ _); cbn; rewrite ?app_nil_r; split_and!; (done || lia).
    + destruct (Fs.rename _ filepath _ _);
        destruct (Fs.rename _ (Change.step_2_path _ _) _ _); cbn;
        rewrite ?app_nil_r; split_and!; (done || lia).
    + destruct (Fs.rename _ _ _ _); cbn; rewrite ?app_nil_r; split_and!; (done || lia).
Qed.

(** X9. A refused title rename makes the record fail: the final rename is
    issued on the title path, where the file is not, so unless another file
    sits at that path the final rename fails too, whether or not the system
    would refuse it; the filesystem is unchanged and the file is reported. *)
Theorem refused_title_rename_fails_record (w : Change.world) (st : Change.state)
    (filepath : pystr) (i : nat) (url title : pystr) :
  Change.fs st !! filepath = Some (Fs.Webloc i url) ->
  url <> [] ->
  Change.url_map st !! Change.canonicalize url = None ->
  Change.get_webpage_title w (Change.canonicalize url) = Some title ->
  title <> [] ->
  Change.os_refuses w (Change.clock st) = true ->
  Change.fs st !! Change.step_2_path filepath title = None ->
  let st' := fst (Change.process w st filepath) in
  let r := snd (Change.process w st filepath) in
  Change.fs st' = Change.fs st /\
  Change.failed_instances st' = Change.failed_instances st ++ [filepath] /\
  Change.r_calls r =
    [Change.CallTitleRename filepath (Change.step_2_path filepath title) false;
     Change.CallFinalRename (Change.step_2_path filepath title)
       (Change.step_3 (Change.canonicalize url) (Change.step_2_name filepath title)
                      (Change.step_2_path filepath title)) false].
Proof.
  intros Hfile Hurl Hnew Htitle Hne Hrefused Habsent.
  unfold Change.process, Fs.parse_webloc. rewrite Hfile.
  destruct url as [|c url]; [done|]. rewrite Hnew.
  unfold Change.step_2. rewrite Htitle. destruct title as [|t title]; [done|].
  rewrite Hrefused. cbn [Fs.rename].
  assert (E : forall refused dst,
             Fs.rename refused (Change.step_2_path filepath (t :: title)) dst (Change.fs st)
             = None).
  { intros refused dst. unfold Fs.rename. rewrite Habsent. by destruct refused. }
  rewrite E. cbn. done.
Qed.

Lemma refused_title_rename_fails_record_witness :
  let w := {| Change.get_webpage_title := fun _ => Some (str "T");
              Change.os_refuses := fun n => Nat.eqb n 0 |} in
  let a := str "/d/a.webloc" in
  let st := Change.initial (<[a := Fs.Webloc 0 (str "https://x.org/1")]> ∅) in
  Change.fs (fst (Change.process w st a)) = Change.fs st /\
  Change.failed_instances (fst (Change.process w st a)) = [a] /\
  Change.r_calls (snd (Change.process w st a)) =
    [Change.CallTitleRename a (str "/d/T") false;
     Change.CallFinalRename (str "/d/T") (str "/d/       Link - T.webloc") false].
Proof.
  intros w a st.
  apply (refused_title_rename_fails_record w st a 0 (str "https://x.org/1") (str "T")).
  - vm_compute. reflexivity.
  - vm_compute. discriminate.
  - vm_compute. reflexivity.
  - vm_compute. reflexivity.
  - vm_compute. discriminate.
  - vm_compute. reflexivity.
  - vm_compute. reflexivity.
Defined.

(** X10. The iteration of a duplicate only removes: when the key of the
    file is in [url_map], the map is unchanged, no rename is issued, and
    either the file is removed and nothing is reported, or the removal is
    refused, the filesystem is unchanged and the file is reported. *)
Theorem duplicate_is_only_removed (w : Change.world) (st : Change.state)
    (filepath : pystr) (i : nat) (url first_path : pystr) :
  Change.fs st !! filepath = Some (Fs.Webloc i url) ->
  url <> [] ->
  Change.url_map st !! Change.canonicalize url = Some first_path ->
  let st' := fst (Change.process w st filepath) in
  let r := snd (Change.process w st filepath) in
  Change.url_map st' = Change.url_map st /\
  Change.r_verdict r = Change.Duplicate first_path /\
  (if Change.os_refuses w (Change.clock st)
   then Change.fs st' = Change.fs st /\
        Change.failed_instances st' = Change.failed_instances st ++ [filepath] /\
        Change.r_calls r = [Change.CallRemove filepath false]
   else Change.fs st' = delete filepath (Change.fs st) /\
        Change.failed_instances st' = Change.failed_instances st /\
        Change.r_calls r = [Change.CallRemove filepath true]).
Proof.
  intros Hfile Hurl Hdup.
  unfold Change.process, Fs.parse_webloc. rewrite Hfile.
  destruct url as [|c url]; [done|]. rewrite Hdup.
  unfold Fs.remove. rewrite Hfile.
  destruct (Change.os_refuses w (Change.clock st)); cbn; done.
Qed.

Lemma duplicate_is_only_removed_witness :
  let w := {| Change.get_webpage_title := fun _ => None;
              Change.os_refuses := fun _ => false |} in
  let b := str "/d/b.webloc" in
  let url := str "https://x.org/1" in
  let st := {| Change.url_map := <[url := str "/d/a.webloc"]> ∅;
               Change.fs := <[b := Fs.Webloc 1 url]> ∅;
               Change.clock := 1; Change.failed_instances := [];
               Change.total_count := 1 |} in
  Change.fs (fst (Change.process w st b)) = delete b (Change.fs st) /\
  Change.r_verdict (snd (Change.process w st b)) = Change.Duplicate (str "/d/a.webloc").
Proof.
  intros w b url st.
  destruct (duplicate_is_only_removed w st b 1 url (str "/d/a.webloc"))
    as (_ & Hv & Hfs & _).
  - vm_compute. reflexivity.
  - vm_compute. discriminate.
  - vm_compute. reflexivity.
  - split; [exact Hfs | exact Hv].
Defined.

(** ** Batches *)

Section Batches.

Import Slim.


End Batches.



(** ** Answers that are too long, and what a call can name or report *)

Section Answers.

Import Slim.

(** The entries are handled one after the other, stopping at the first
    [IndexError]. *)
Lemma update_names_app (e1 e2 : list entry) (fpl : list (pystr * pystr)) (i : nat)
    (names : dict) :
  update_names i (e1 ++ e2) fpl names =
  match update_names i e1 fpl names with
  | (names1, true) => (names1, true)
  | (names1, false) => update_names (i + length e1) e2 fpl names1
  end.
Proof.
  revert i names. induction e1 as [|e e1 IH]; intros i names.
  - cbn. by rewrite Nat.add_0_r.
  - cbn [app update_names length]. destruct (fpl !! i) as [[filepath prefix]|]; [|done].
    rewrite IH. by rewrite Nat.add_succ_r.
Qed.

(** A key of the dict after the update was a key before or is a file of
    the batch. *)
Lemma update_names_keys (batch : list pystr) (entries : list entry) (i : nat)
    (names : dict) (k : pystr) :
  dict_get k (fst (update_names i entries (file_prefix_list_of batch) names)) <> None ->
  dict_get k names <> None \/ In k batch.
Proof.
  revert i names. induction entries as [|e entries IH]; intros i names; [by left|].
  cbn [update_names]. rewrite file_prefix_list_lookup.
  destruct (batch !! i) as [p|] eqn:Ep; [|by left].
  intros H. apply IH in H as [H|H]; [|by right].
  destruct (decide (p = k)) as [->|Hne].
  - right. apply list_elem_of_In. by eapply list_elem_of_lookup_2.
  - left. by rewrite dict_get_set_ne in H.
Qed.

Lemma In_take_drop {A} (n m : nat) (l : list A) (x : A) :
  In x (take n (drop m l)) -> In x l.
Proof.
  intros H. apply list_elem_of_In. apply list_elem_of_In in H.
  assert (Hs : take n (drop m l) `sublist_of` l)
    by (etrans; [apply sublist_take | apply sublist_drop]).
  apply sublist_submseteq in Hs. by apply (elem_of_submseteq _ _ _ H Hs).
Qed.

Lemma sublist_concat_map {A B} (f : A -> list B) (l1 l2 : list A) :
  l1 `sublist_of` l2 -> concat (List.map f l1) `sublist_of` concat (List.map f l2).
Proof.
  induction 1 as [|x l1 l2 _ IH|x l1 l2 _ IH]; cbn.
  - done.
  - by apply sublist_app.
  - by apply sublist_inserts_l.
Qed.

Variable w : world.

(** One turn reports the whole batch or nothing, and names files of the
    batch only. *)
Lemma turn_effect (b : batch_dict) (rest : list batch_dict) (st : queue_state) :
  (failed_instances (turn w b rest st) = failed_instances st \/
   failed_instances (turn w b rest st) = failed_instances st ++ filenames b) /\
  (forall k, dict_get k (simplified_names (turn w b rest st)) <> None ->
             dict_get k (simplified_names st) <> None \/ In k (filenames b)).
Proof.
  unfold turn. destruct (service w (requests st)) as [|entries].
  - rewrite on_exception_spec. cbn. split; [by right | by left].
  - pose proof (update_names_keys (filenames b) entries 0 (simplified_names st)) as Hk.
    destruct (update_names 0 entries _ _) as [names [|]]; cbn [fst] in Hk.
    + rewrite on_exception_spec. cbn. split; [by right | exact Hk].
    + cbn. split; [by left | exact Hk].
Qed.

(** The loop reports the files of some of the queued batches, in queue
    order, and names files of queued batches only. *)
Lemma while_loop_effect (fuel : nat) (st st' : queue_state) :
  while_loop fuel w st = Some st' ->
  (exists chosen,
      chosen `sublist_of` batched_filepaths st /\
      failed_instances st' = failed_instances st ++ concat (List.map filenames chosen)) /\
  (forall k, dict_get k (simplified_names st') <> None ->
             dict_get k (simplified_names st) <> None \/
             In k (concat (List.map filenames (batched_filepaths st)))).
Proof.
  revert st. induction fuel as [|fuel IH]; intros st Hrun.
  - cbn in Hrun. destruct (batched_filepaths st); [|discriminate Hrun].
    injection Hrun as <-. split; [|by left]. exists []. by rewrite app_nil_r.
  - cbn [while_loop] in Hrun. destruct (batched_filepaths st) as [|b rest] eqn:Eq.
    + injection Hrun as <-. split; [|by left]. exists []. by rewrite app_nil_r.
    + apply IH in Hrun as [(chosen & Hsub & Hf) Hk].
      destruct (turn_pops w b rest st) as (Hq & _ & _).
      destruct (turn_effect b rest st) as [Hfail Hkeys].
      rewrite Hq in Hsub, Hk. split.
      * destruct Hfail as [E|E]; rewrite E in Hf.
        -- exists chosen. split; [by apply sublist_cons | exact Hf].
        -- exists (b :: chosen). split; [by apply sublist_skip|].
           rewrite Hf. cbn [List.map concat]. by rewrite app_assoc.
      * intros k Hin. cbn [List.map concat]. rewrite in_app_iff.
        destruct (Hk k Hin) as [H|H]; [|tauto].
        destruct (Hkeys k H); tauto.
Qed.

End Answers.

(** X12. An answer with more entries than the batch has files makes line
    110 raise [IndexError] after every file of the batch got its name: the
    files keep these names in the dict and are reported as failed as well,
    so they are renamed later and listed in the failure list too. *)
Theorem long_answer_names_and_fails (w : Slim.world) (b : Slim.batch_dict)
    (rest : list Slim.batch_dict) (st : Slim.queue_state) (entries : list Slim.entry) :
  Slim.service w (Slim.requests st) = Slim.Parsed entries ->
  (length (Slim.filenames b) < length entries)%nat ->
  NoDup (Slim.filenames b) ->
  let st' := Slim.turn w b rest st in
  Slim.batched_filepaths st' = rest /\
  Slim.failed_instances st' = Slim.failed_instances st ++ Slim.filenames b /\
  (forall i e p,
      entries !! i = Some e -> Slim.filenames b !! i = Some p ->
      Slim.dict_get p (Slim.simplified_names st') =
      Some (Slim.with_prefix (snd (Slim.name_and_prefix p)) (Slim.simplified_of e))).
Proof.
  intros Hw Hlen Hnd st'.
  set (n := length (Slim.filenames b)).
  destruct (update_names_short (Slim.filenames b) (take n entries) Hnd 0
              (Slim.simplified_names st)) as (names' & Hrun & Hset & _).
  { rewrite length_take. lia. }
  assert (Hall : Slim.update_names 0 entries
                   (Slim.file_prefix_list_of (Slim.filenames b)) (Slim.simplified_names st)
                 = (names', true)).
  { rewrite <- (take_drop n entries), update_names_app, Hrun.
    rewrite length_take, Nat.min_l by lia. cbn [plus].
    destruct (drop n entries) as [|e more] eqn:Ed.
    - apply (f_equal length) in Ed. rewrite length_drop in Ed. cbn in Ed. lia.
    - cbn [Slim.update_names]. rewrite file_prefix_list_lookup.
      rewrite (lookup_ge_None_2 (Slim.filenames b) n); [reflexivity | unfold n; lia]. }
  assert (Est : st' = {| Slim.batched_filepaths := rest; Slim.simplified_names := names';
                         Slim.failed_instances :=
                           Slim.failed_instances st ++ Slim.filenames b;
                         Slim.requests := S (Slim.requests st);
                         Slim.attempted := Slim.attempted st ++ [Slim.id b] |}).
  { unfold st', Slim.turn. rewrite Hw, Hall. apply on_exception_spec. }
  rewrite Est. cbn. split_and!; [reflexivity|reflexivity|].
  intros i e p He Hp. apply (Hset i e p); [|exact Hp].
  rewrite lookup_take_lt; [exact He|]. apply lookup_lt_Some in Hp. exact Hp.
Qed.

Lemma long_answer_names_and_fails_witness :
  let w := {| Slim.service := fun _ => Slim.Parsed [Slim.Bare (str "x"); Slim.Bare (str "y")];
              Slim.os_refuses := fun _ => false;
              Slim.confirmation := str "y" |} in
  let b := {| Slim.id := 0; Slim.attempts := 0; Slim.filenames := [str "/d/a.webloc"] |} in
  let st := {| Slim.batched_filepaths := [b]; Slim.simplified_names := [];
               Slim.failed_instances := []; Slim.requests := 0;
               Slim.attempted := [] |} in
  Slim.failed_instances (Slim.turn w b [] st) = [str "/d/a.webloc"] /\
  Slim.dict_get (str "/d/a.webloc") (Slim.simplified_names (Slim.turn w b [] st))
    = Some (str "x").
Proof.
  intros w b st.
  assert (Hnd : NoDup (Slim.filenames b)).
  { apply (bool_decide_unpack _). vm_compute. exact I. }
  destruct (long_answer_names_and_fails w b [] st
              [Slim.Bare (str "x"); Slim.Bare (str "y")] eq_refl ltac:(cbn; lia) Hnd)
    as (_ & Hf & Hset).
  split; [exact Hf|].
  exact (Hset 0%nat _ (str "/d/a.webloc") eq_refl eq_refl).
Defined.

(** X13. Whatever the service answers, [simplify_filenames] reports and
    names input files only: the failure list is a subsequence of the input
    list, so it keeps the input order and lists no file more often than the
    input does, and every key of the dict returned is an input file. *)
Theorem simplify_filenames_stays_within_input (w : Slim.world) (filepaths : list pystr)
    (batch_size : Z) (st : Slim.queue_state) :
  Slim.simplify_filenames w filepaths batch_size = Slim.Returned st ->
  Slim.failed_instances st `sublist_of` filepaths /\
  (forall k, Slim.dict_get k (Slim.simplified_names st) <> None -> In k filepaths).
Proof.
  intros Hret.
  destruct (Slim.ceil_div (Z.of_nat (length filepaths)) batch_size) as [count|] eqn:Ec.
  2: { unfold Slim.simplify_filenames in Hret. rewrite Ec in Hret. discriminate Hret. }
  destruct (simplify_filenames_run w filepaths batch_size count Ec)
    as (st1 & Hret1 & Hrun & _).
  rewrite Hret1 in Hret. injection Hret as ->.
  apply while_loop_effect in Hrun as [(chosen & Hsub & Hf) Hk]. cbn in Hsub, Hf, Hk.
  assert (Hin : forall k, In k (concat (List.map Slim.filenames
                                  (Slim.make_batches filepaths batch_size count))) ->
                          In k filepaths).
  { intros k H. apply in_concat in H as (l & Hl & Hkl).
    apply in_map_iff in Hl as (b & <- & Hb).
    unfold Slim.make_batches in Hb. apply in_map_iff in Hb as (i & <- & _).
    cbn in Hkl. by apply In_take_drop in Hkl. }
  split.
  - rewrite Hf. destruct (decide (0 < batch_size)) as [Hpos|Hneg].
    + rewrite <- (make_batches_concat filepaths batch_size count Hpos Ec).
      by apply sublist_concat_map.
    + assert (count = 0%nat) as ->.
      { unfold Slim.ceil_div in Ec.
        destruct (batch_size =? 0) eqn:E0; [discriminate Ec|].
        destruct (batch_size <? 0) eqn:E; [by injection Ec as <-|].
        apply Z.ltb_ge in E. apply Z.eqb_neq in E0. lia. }
      cbn in Hsub. apply sublist_nil_r in Hsub as ->. cbn. apply sublist_nil_l.
  - intros k Hkey. destruct (Hk k Hkey) as [H|H]; [done | by apply Hin].
Qed.

Lemma simplify_filenames_stays_within_input_witness :
  let w := {| Slim.service := fun n => match n with
                                       | O => Slim.Parsed [Slim.Bare (str "x")]
                                       | S _ => Slim.Raises
                                       end;
              Slim.os_refuses := fun _ => false;
              Slim.confirmation := str "y" |} in
  [str "/d/b.webloc"] `sublist_of` [str "/d/a.webloc"; str "/d/b.webloc"].
Proof.
  intros w.
  refine (proj1 (simplify_filenames_stays_within_input w
                   [str "/d/a.webloc"; str "/d/b.webloc"] 1
                   {| Slim.batched_filepaths := [];
                      Slim.simplified_names := [(str "/d/a.webloc", str "x")];
                      Slim.failed_instances := [str "/d/b.webloc"];
                      Slim.requests := 2; Slim.attempted := [0; 1]%nat |} _)).
  vm_compute. reflexivity.
Defined.

(** ** The renaming pass and the runs of [slim_webloc_names.py] *)

Section RenamePass.

Import Slim.

Variable w : world.

Lemma rename_one_real (st : rename_state) (p n : pystr) :
  let st1 := rename_one w false st (p, n) in
  (has_name (p, n) = false /\ st1 = st) \/
  (has_name (p, n) = true /\
   exists dst ok,
     calls st1 = calls st ++ [(p, dst, ok)] /\
     renames_failed st1 = renames_failed st ++ (if ok then [] else [p]) /\
     clock st1 = S (clock st)).
Proof.
  unfold rename_one, has_name. cbn [snd]. destruct n as [|c n]; [by left|].
  right. split; [reflexivity|].
  destruct (Fs.rename _ _ _ _); cbn; do 2 eexists; (split_and!; [reflexivity| |reflexivity]).
  - by rewrite app_nil_r.
  - reflexivity.
Qed.

(** Without [dry_run] each item with a name adds exactly one call, and the
    failure list follows the calls. *)
Lemma rename_loop_real (names : dict) (st : rename_state) :
  let st' := fold_left (rename_one w false) names st in
  List.map call_src (calls st') =
    List.map call_src (calls st) ++ List.map fst (List.filter has_name names) /\
  (renames_failed st = List.map call_src (List.filter call_failed (calls st)) ->
   renames_failed st' = List.map call_src (List.filter call_failed (calls st'))) /\
  (clock st = length (calls st) -> clock st' = length (calls st')).
Proof.
  revert st. induction names as [|[p n] names IH]; intros st.
  - cbn. by rewrite app_nil_r.
  - cbn [fold_left List.filter]. destruct (IH (rename_one w false st (p, n))) as (Hs & Hf & Hc).
    cbv zeta. rewrite Hs.
    destruct (rename_one_real st p n) as [[Hn E1] | (Hn & dst & ok & Ek & Ef & Ec)];
      rewrite Hn.
    + cbv zeta in E1. rewrite E1 in *. split_and!; [reflexivity|exact Hf|exact Hc].
    + rewrite Ek, Ef, Ec in *. split_and!.
      * rewrite map_app. cbn. by rewrite <- app_assoc.
      * intros E. apply Hf. rewrite List.filter_app, map_app, E. f_equal.
        unfold call_failed. cbn. by destruct ok.
      * intros E. apply Hc. rewrite length_app. cbn. lia.
Qed.

End RenamePass.

(** X14. One failure does not stop the renaming pass: without [dry_run],
    [rename_webloc_files] issues exactly one [os.rename] for each item of
    the dict that has a non-empty name, in dict order, whatever happened to
    the items before it; items with an empty name are skipped; and the list
    it returns holds exactly the files whose rename failed, in that order. *)
Theorem rename_pass_attempts_every_name (w : Slim.world) (simplified_names : Slim.dict)
    (fs0 : Fs.t) :
  let r := Slim.rename_webloc_files w false simplified_names fs0 in
  List.map Slim.call_src (Slim.calls r)
    = List.map fst (List.filter Slim.has_name simplified_names) /\
  Slim.renames_failed r
    = List.map Slim.call_src (List.filter Slim.call_failed (Slim.calls r)) /\
  Slim.clock r = length (Slim.calls r).
Proof.
  unfold Slim.rename_webloc_files.
  destruct (rename_loop_real w simplified_names
              {| Slim.fs := fs0; Slim.clock := 0; Slim.renames_failed := [];
                 Slim.printed := []; Slim.calls := [] |}) as (Hs & Hf & Hc).
  cbv zeta. split_and!; [exact Hs | by apply Hf | by apply Hc].
Qed.

(** X15. Without [dry_run], any answer to the confirmation prompt other
    than "y" or "Y" ends the run before anything is changed or reported:
    the filesystem is as it was, no rename line is printed and [failed.py]
    is not written, even when batches were refused. *)
Theorem declined_run_changes_nothing (w : Slim.world) (fs0 : Fs.t) (walk : list pystr)
    (batch_size : Z) (fs' : Fs.t) (printed : list Slim.line) :
  Slim.confirmation w <> str "y" ->
  Slim.confirmation w <> str "Y" ->
  Slim.main w fs0 walk batch_size false = Slim.Finished fs' printed ->
  fs' = fs0 /\ printed = [].
Proof.
  intros Hy HY. unfold Slim.main.
  destruct (Fs.find_webloc_files fs0 walk) as [|f files]; [by intros [= <- <-]|].
  destruct (Slim.simplify_filenames w (f :: files) batch_size) as [q| |];
    [|discriminate|discriminate].
  destruct (Slim.simplified_names q) as [|item names]; [by intros [= <- <-]|].
  unfold eqb. rewrite !bool_decide_eq_false_2 by done. cbn [negb andb orb].
  by intros [= <- <-].
Qed.

Lemma declined_run_changes_nothing_witness :
  let w := {| Slim.service := fun _ => Slim.Parsed [Slim.Bare (str "x")];
              Slim.os_refuses := fun _ => false;
              Slim.confirmation := str "n" |} in
  let fs0 : Fs.t := <[str "/d/a.webloc" := Fs.Webloc 0 (str "https://x.org/1")]> ∅ in
  Slim.main w fs0 [str "/d/a.webloc"] 5 false = Slim.Finished fs0 [] /\
  fs0 = fs0 /\ @nil Slim.line = [].
Proof.
  intros w fs0.
  assert (H : Slim.main w fs0 [str "/d/a.webloc"] 5 false = Slim.Finished fs0 [])
    by (vm_compute; reflexivity).
  split; [exact H|].
  apply (declined_run_changes_nothing w fs0 [str "/d/a.webloc"] 5 fs0 []);
    [vm_compute; discriminate | vm_compute; discriminate | exact H].
Defined.



(** ** Names sent to the service and put back *)

Section Echo.

Import Slim.

Lemma splitext_parts (p : pystr) : fst (splitext p) ++ snd (splitext p) = p.
Proof.
  unfold splitext. cbv zeta.
  destruct (_ && _) eqn:E; cbn [fst snd]; [|apply app_nil_r].
  apply andb_true_iff in E as [E _]. apply Z.ltb_lt in E.
  assert (H0 : 0 <= rfind dot p).
  { unfold rfind in *. destruct (rfind_opt slash p), (rfind_opt dot p); lia. }
  unfold slice_to, slice_from.
  destruct (rfind dot p <? 0) eqn:En; [apply Z.ltb_lt in En; lia|].
  apply take_drop.
Qed.

(** Putting the prefix back on the name that was sent gives the base name
    back when it has one segment, or two with a first one that is not
    empty. *)
Lemma prefix_put_back (filepath : pystr) :
  let base := fst (splitext (basename filepath)) in
  let parts := split (str " - ") base in
  (length parts = 1%nat \/ (length parts = 2%nat /\ first parts <> [])) ->
  with_prefix (snd (name_and_prefix filepath)) (fst (name_and_prefix filepath)) = base.
Proof.
  intros base parts Hparts.
  assert (Hjoin : join_with (str " - ") parts = base).
  { apply join_split. vm_compute. discriminate. }
  unfold name_and_prefix. fold base. cbv zeta. fold parts. cbn [fst snd].
  destruct Hparts as [H1 | [H2 Hne]].
  - destruct parts as [|a [|b rest]]; try discriminate H1.
    cbn in Hjoin |- *. exact Hjoin.
  - destruct parts as [|a [|b [|c rest]]]; try discriminate H2.
    cbn [length Nat.ltb Nat.leb first last List.last hd] in Hne |- *.
    cbn [join_with] in Hjoin. unfold with_prefix.
    destruct a as [|x a]; [done|]. exact Hjoin.
Qed.

End Echo.

(** X17. A name that comes back from the service unchanged renames the
    file onto itself: when the base name of the file has at most one " - "
    (with something before it), the name of the file has at most 255
    characters and the path is the join of its directory and its name, the
    prefix put back on the name that was sent gives the base name, and the
    path computed from it is the path of the file. *)
Theorem echoed_name_renames_onto_itself (filepath : pystr) :
  let base := fst (splitext (basename filepath)) in
  let parts := split (str " - ") base in
  let echoed := Slim.with_prefix (snd (Slim.name_and_prefix filepath))
                                 (fst (Slim.name_and_prefix filepath)) in
  (length parts = 1%nat \/ (length parts = 2%nat /\ first parts <> [])) ->
  len (basename filepath) <= 255 ->
  join (dirname filepath) (basename filepath) = filepath ->
  echoed = base /\ Slim.new_path_of filepath echoed = filepath.
Proof.
  intros base parts echoed Hparts Hlen Hjoin.
  assert (He : echoed = base) by exact (prefix_put_back filepath Hparts).
  split; [exact He|].
  unfold Slim.new_path_of, Slim.new_name_of. cbv zeta. rewrite He. unfold base.
  rewrite splitext_parts.
  destruct (255 <? len (basename filepath)) eqn:E; [apply Z.ltb_lt in E; lia|].
  exact Hjoin.
Qed.

Lemma echoed_name_renames_onto_itself_witness :
  Slim.with_prefix (snd (Slim.name_and_prefix (str "/d/P - a.webloc")))
                   (fst (Slim.name_and_prefix (str "/d/P - a.webloc"))) = str "P - a" /\
  Slim.new_path_of (str "/d/P - a.webloc") (str "P - a") = str "/d/P - a.webloc".
Proof.
  apply (echoed_name_renames_onto_itself (str "/d/P - a.webloc")).
  - right. split; [vm_compute; reflexivity | vm_compute; discriminate].
  - vm_compute. discriminate.
  - vm_compute. reflexivity.
Defined.

(** X18. The rules are tried in the order of [PLATFORM_RULES] and the first
    whose detector matches the URL decides: the rules before it and after it
    play no part, the prefix is put on the last " - " segment of the
    stripped name unless the unstripped name starts with it, and the
    cleaner of that rule runs in both cases.  When no detector matches, the
    name is "       Link - " and the last segment of the unstripped name, so
    what lines 204-205 took out of the name is back. *)
Theorem first_matching_rule_decides (before after : list (string * Change.rule))
    (label : string) (r : Change.rule) (url step_2_filename step_3_filename : pystr) :
  Forall (fun nr : string * Change.rule => Change.detect (snd nr) url = false) before ->
  (Change.detect r url = true ->
   Change.apply_rules (before ++ (label, r) :: after) url step_2_filename step_3_filename
   = Change.suffix_cleaner r
       (if startswith step_2_filename (Change.prefix r) then step_3_filename
        else Change.prefix r ++ last (split (str " - ") step_3_filename))) /\
  Change.apply_rules before url step_2_filename step_3_filename
  = str "       Link - " ++ last (split (str " - ") step_2_filename).
Proof.
  intros Hbefore. induction before as [|[l0 r0] before IH]; cbn [app Change.apply_rules].
  - split; [|reflexivity]. intros ->.
    by destruct (startswith step_2_filename (Change.prefix r)).
  - apply Forall_cons in Hbefore as [H0 Hbefore]. cbn [snd] in H0. rewrite H0.
    exact (IH Hbefore).
Qed.

Lemma first_matching_rule_decides_witness :
  Change.apply_rules Change.PLATFORM_RULES (str "https://x.org/1")
                     (str "what?.webloc") (Change.strip_chars (str "what?.webloc"))
  = str "       Link - what?.webloc".
Proof.
  pose proof (first_matching_rule_decides Change.PLATFORM_RULES []
                EmptyString
                {| Change.prefix := []; Change.detect := fun _ => true;
                   Change.suffix_cleaner := fun n => n |}
                (str "https://x.org/1") (str "what?.webloc")
                (Change.strip_chars (str "what?.webloc"))) as H.
  rewrite (proj2 (H ltac:(apply (bool_decide_unpack _); vm_compute; exact I))).
  vm_compute. reflexivity.
Defined.
